(** * Vivacity: the project-manifest patcher [add_files.py]

    A shallow embedding of the script that registers
    [PermissionService.swift] and [PermissionDeniedView.swift] in
    [Vivacity.xcodeproj/project.pbxproj], and the properties of its
    specification.

    The script is a flat sequence of statements over one text buffer.  It is
    embedded as one monadic program [script] over a [world] (file system,
    console, random source), built from models of the Python primitives it
    calls: [str.find], [in], slicing, [re.search] and [uuid.uuid4]. *)

From Stdlib Require Import ZArith List Ascii String Lia Bool.
From stdpp Require Import base gmap strings list.
Import ListNotations.

Local Open Scope Z_scope.

(** ** Text *)

(** A Python [str] is modelled as the list of its characters. *)
Abbreviation text := (list ascii).

Definition txt (s : string) : text := list_ascii_of_string s.

Definition TAB : ascii := "009"%char.
Definition NL : ascii := "010"%char.
Definition DQ : ascii := "034"%char.

(** ** Python string primitives *)

Module Py.

(** [s.startswith(p)], the comparison at one position that [find], [in] and
    the regular-expression literals perform. *)
Fixpoint starts_with (p s : text) : bool :=
  match p, s with
  | [], _ => true
  | _ :: _, [] => false
  | a :: p', b :: s' => if Ascii.eqb a b then starts_with p' s' else false
  end.

(** [s.find(sub)]: the lowest index at which [sub] occurs, [-1] if none. *)
Fixpoint find_from (s sub : text) (i : Z) : Z :=
  if starts_with sub s then i
  else match s with
       | [] => -1
       | _ :: s' => find_from s' sub (i + 1)
       end.

Definition find (s sub : text) : Z := find_from s sub 0.

(** [sub in s]. *)
Fixpoint contains (sub s : text) : bool :=
  if starts_with sub s then true
  else match s with
       | [] => false
       | _ :: s' => contains sub s'
       end.

(** The position a slice bound [i] denotes in a sequence of length [n]:
    negative bounds count from the end, and everything is clamped. *)
Definition slice_bound (n : nat) (i : Z) : nat :=
  if i <? 0 then Z.to_nat (Z.max 0 (Z.of_nat n + i))
  else Z.to_nat (Z.min i (Z.of_nat n)).

(** [s[:i]] and [s[i:]]. *)
Definition slice_to (s : text) (i : Z) : text :=
  take (slice_bound (length s) i) s.

Definition slice_from (s : text) (i : Z) : text :=
  drop (slice_bound (length s) i) s.

(** [c.upper()] on one character; the script only applies it to ASCII. *)
Definition upper_char (c : ascii) : ascii :=
  let n := nat_of_ascii c in
  if (97 <=? n)%nat && (n <=? 122)%nat then ascii_of_nat (n - 32) else c.

Definition upper (s : text) : text := map upper_char s.

End Py.

(** ** [uuid.uuid4] *)

Module Uuid.

(** [UUID(bytes=os.urandom(16), version=4)]: the 128 random bits with the
    RFC 4122 variant and the version number forced. [r] stands for the
    integer read from the sixteen random bytes. *)
Definition uuid4 (r : Z) : Z :=
  let int := r mod 2 ^ 128 in
  let int := Z.land int (Z.lnot (Z.shiftl 0xc000 48)) in
  let int := Z.lor int (Z.shiftl 0x8000 48) in
  let int := Z.land int (Z.lnot (Z.shiftl 0xf000 64)) in
  let int := Z.lor int (Z.shiftl 4 76) in
  int.

Definition hex_digit (d : Z) : ascii :=
  nth (Z.to_nat d) (txt "0123456789abcdef") "0"%char.

(** ['%032x' % int] for an [int] below [2^128]: the 32 nibbles, most
    significant first. *)
Definition hex (int : Z) : text :=
  map (fun k => hex_digit (Z.land (Z.shiftr int (4 * Z.of_nat k)) 15))
      (rev (seq 0 32)).

End Uuid.

(** ** [re.search] *)

Module Re.

(** The fragment of the pattern language the script uses: literal
    characters and greedy stars of negated character classes. *)
Inductive item :=
  | Lit (c : ascii)
  | NotStar (excl : text).

Definition pattern := list item.

Definition lit (s : text) : pattern := map Lit s.

Definition excluded (excl : text) (c : ascii) : bool :=
  existsb (Ascii.eqb c) excl.

(** A greedy star of a negated class, followed by the rest of the pattern
    [rest]: the backtracking engine first takes as many characters as it
    can and gives them back one at a time until the rest matches.  The
    result is the length of the match. *)
Fixpoint star (excl : text) (rest : text -> option nat) (s : text) : option nat :=
  match s with
  | x :: s' =>
      if excluded excl x then rest s
      else match star excl rest s' with
           | Some n => Some (S n)
           | None => rest s
           end
  | [] => rest s
  end.

(** Matching at a fixed start. *)
Fixpoint match_here (p : pattern) : text -> option nat :=
  match p with
  | [] => fun _ => Some 0%nat
  | Lit c :: p' => fun s =>
      match s with
      | x :: s' => if Ascii.eqb c x then S <$> match_here p' s' else None
      | [] => None
      end
  | NotStar excl :: p' => star excl (match_here p')
  end.

(** A match object: [m.start()] and [m.end()]. *)
Record mtch := Match { m_start : nat; m_end : nat }.

(** [re.search(p, s)]: the match at the leftmost start that has one. *)
Fixpoint search_from (p : pattern) (s : text) (i : nat) : option mtch :=
  match match_here p s with
  | Some n => Some (Match i (i + n))
  | None => match s with
            | [] => None
            | _ :: s' => search_from p s' (S i)
            end
  end.

Definition search (p : pattern) (s : text) : option mtch := search_from p s 0.

End Re.

(** ** The world the script runs in *)

(** The file system maps a path to the text that reading the file in text
    mode yields; decoding and newline translation are not modelled, and
    neither are failures other than a missing file. *)
Record world := World {
  files : gmap string text;      (* the file system: path to content *)
  console : list string;         (* lines printed so far *)
  entropy : nat -> Z;            (* the values [os.urandom(16)] will return *)
  drawn : nat;                   (* how many of them were consumed *)
  writes : nat                   (* how many files were written *)
}.

(** A statement either completes with a value or leaves through
    [sys.exit]. *)
Inductive outcome (A : Type) :=
  | Done (a : A)
  | Exited (status : Z).
Arguments Done {A} a.
Arguments Exited {A} status.

Definition M (A : Type) : Type := world -> outcome A * world.

Definition ret {A} (a : A) : M A := fun w => (Done a, w).

Definition bind {A B} (m : M A) (k : A -> M B) : M B :=
  fun w => match m w with
           | (Done a, w') => k a w'
           | (Exited st, w') => (Exited st, w')
           end.

Notation "x <- m ;; k" := (bind m (fun x => k))
  (at level 100, m at next level, right associativity).
Notation "m ;; k" := (bind m (fun _ => k))
  (at level 100, right associativity).

Definition print (line : string) : M unit :=
  fun w => (Done tt, World (files w) (console w ++ [line]) (entropy w) (drawn w) (writes w)).

Definition sys_exit {A} (status : Z) : M A := fun w => (Exited status, w).

(** [open(path, "r")] followed by [f.read()]; [None] stands for
    [FileNotFoundError], the one failure the script catches.  The other
    ways in which opening or reading can fail (a directory at the path, a
    file that cannot be opened or decoded) end the real run with an
    uncaught exception; they are outside the model, in which a path holds
    a text or nothing. *)
Definition read_file (path : string) : M (option text) :=
  fun w => (Done (files w !! path), w).

(** [open(path, "w")] followed by [f.write(content)].  In the model the
    write goes through; a file that cannot be opened for writing ends the
    real run with an uncaught exception before anything is written. *)
Definition write_file (path : string) (content : text) : M unit :=
  fun w => (Done tt, World (<[path := content]> (files w)) (console w) (entropy w) (drawn w) (S (writes w))).

Definition urandom : M Z :=
  fun w => (Done (entropy w (drawn w)), World (files w) (console w) (entropy w) (S (drawn w)) (writes w)).

(** ** The script *)

Definition gen_uuid : M text :=
  r <- urandom ;;
  ret (Py.upper (Py.slice_to (Uuid.hex (Uuid.uuid4 r)) 24)).

Definition pbx_path : string := "Vivacity.xcodeproj/project.pbxproj".

Definition guard_marker : text := txt "PermissionService.swift".
Definition file_ref_end_marker : text := txt "/* End PBXFileReference section */".
Definition build_file_end_marker : text := txt "/* End PBXBuildFile section */".

(** One line of the file-reference table. *)
Definition file_ref_entry (file_ref name : text) : text :=
  [TAB; TAB] ++ file_ref ++ txt " /* " ++ name
    ++ txt " */ = {isa = PBXFileReference; lastKnownFileType = sourcecode.swift; path = "
    ++ name ++ txt "; sourceTree = " ++ [DQ] ++ txt "<group>" ++ [DQ] ++ txt "; };".

(** One line of the build-file table. *)
Definition build_file_entry (build_file file_ref name : text) : text :=
  [TAB; TAB] ++ build_file ++ txt " /* " ++ name
    ++ txt " in Sources */ = {isa = PBXBuildFile; fileRef = " ++ file_ref
    ++ txt " /* " ++ name ++ txt " */; };".

Definition svc_name : text := txt "PermissionService.swift".
Definition denied_name : text := txt "PermissionDeniedView.swift".

Definition new_file_refs (perm_svc_file_ref perm_denied_file_ref : text) : text :=
  file_ref_entry perm_svc_file_ref svc_name ++ [NL]
    ++ file_ref_entry perm_denied_file_ref denied_name ++ [NL].

Definition new_build_files
    (perm_svc_build_file perm_svc_file_ref
     perm_denied_build_file perm_denied_file_ref : text) : text :=
  build_file_entry perm_svc_build_file perm_svc_file_ref svc_name ++ [NL]
    ++ build_file_entry perm_denied_build_file perm_denied_file_ref denied_name ++ [NL].

(** A line of a group's [children] list. *)
Definition child_line (file_ref name : text) : text :=
  [NL; TAB; TAB; TAB; TAB] ++ file_ref ++ txt " /* " ++ name ++ txt " */,".

(** The two lines of the Sources build phase. *)
Definition new_sources (perm_svc_build_file perm_denied_build_file : text) : text :=
  [NL; TAB; TAB; TAB; TAB] ++ perm_svc_build_file ++ txt " /* PermissionService.swift in Sources */,"
    ++ [NL; TAB; TAB; TAB; TAB] ++ perm_denied_build_file
    ++ txt " /* PermissionDeniedView.swift in Sources */,".

(** The three patterns have one shape: the comment with the group's name,
    [ = {], a greedy run of characters other than braces, the list key
    with [ = (], and a greedy run of characters other than a closing
    parenthesis.  The capturing group around the whole pattern does not
    change where the match ends. *)
Definition group_pattern (name list_key : string) : Re.pattern :=
  Re.lit (txt "/* " ++ txt name ++ txt " */ = {")
    ++ [Re.NotStar (txt "{}")]
    ++ Re.lit (txt list_key ++ txt " = (")
    ++ [Re.NotStar (txt ")")].

Definition services_re : Re.pattern := group_pattern "Services" "children".
Definition filescan_re : Re.pattern := group_pattern "FileScan" "children".
Definition sources_re : Re.pattern := group_pattern "Sources" "files".

(** [content[:i] + fragment + content[i:]]. *)
Definition splice (content : text) (i : Z) (fragment : text) : text :=
  Py.slice_to content i ++ fragment ++ Py.slice_from content i.

Definition script : M unit :=
  opened <- read_file pbx_path ;;
  match opened with
  | None =>
      print "Error: project.pbxproj not found" ;;
      sys_exit 1
  | Some content =>
      if Py.contains guard_marker content then
        print "Files already added" ;;
        sys_exit 0
      else
        perm_svc_file_ref <- gen_uuid ;;
        perm_svc_build_file <- gen_uuid ;;
        perm_denied_file_ref <- gen_uuid ;;
        perm_denied_build_file <- gen_uuid ;;
        (* 1. PBXFileReference entries *)
        let file_ref_section_end := Py.find content file_ref_end_marker in
        let content :=
          splice content file_ref_section_end
            (new_file_refs perm_svc_file_ref perm_denied_file_ref) in
        (* 2. PBXBuildFile entries *)
        let build_file_section_end := Py.find content build_file_end_marker in
        let content :=
          splice content build_file_section_end
            (new_build_files perm_svc_build_file perm_svc_file_ref
                             perm_denied_build_file perm_denied_file_ref) in
        (* 3. Services group *)
        content <-
          match Re.search services_re content with
          | Some services_pattern =>
              let insert_pos := Z.of_nat (Re.m_end services_pattern) in
              let content :=
                splice content insert_pos (child_line perm_svc_file_ref svc_name) in
              print "Added PermissionService.swift to Services group" ;;
              ret content
          | None =>
              print "WARNING: Could not find Services group" ;;
              ret content
          end ;;
        (* 4. FileScan group *)
        content <-
          match Re.search filescan_re content with
          | Some filescan_pattern =>
              let insert_pos := Z.of_nat (Re.m_end filescan_pattern) in
              let content :=
                splice content insert_pos (child_line perm_denied_file_ref denied_name) in
              print "Added PermissionDeniedView.swift to FileScan group" ;;
              ret content
          | None =>
              print "WARNING: Could not find FileScan group" ;;
              ret content
          end ;;
        (* 5. Sources build phase *)
        content <-
          match Re.search sources_re content with
          | Some sources_pattern =>
              let insert_pos := Z.of_nat (Re.m_end sources_pattern) in
              let new_sources :=
                new_sources perm_svc_build_file perm_denied_build_file in
              let content := splice content insert_pos new_sources in
              print "Added both files to Sources build phase" ;;
              ret content
          | None =>
              print "WARNING: Could not find Sources build phase" ;;
              ret content
          end ;;
        write_file pbx_path content ;;
        print "Project updated successfully"
  end.

(** The exit status of the process: [0] when the script runs to its end. *)
Definition exit_status (o : outcome unit) : Z :=
  match o with
  | Done _ => 0
  | Exited st => st
  end.

Definition run (w : world) : Z * world :=
  let (o, w') := script w in (exit_status o, w').

(** * Notions used to state the properties *)

(** [occurs sub s]: the text [sub] is a substring of [s]. *)
Definition occurs (sub s : text) : Prop := exists a b, s = a ++ sub ++ b.

(** [first_at sub s a]: [sub] occurs in [s] right after the prefix [a], and
    nowhere further left. *)
Definition first_at (sub s a : text) : Prop :=
  (exists b, s = a ++ sub ++ b) /\
  forall a' b', s = a' ++ sub ++ b' -> (length a <= length a')%nat.

(** The characters of an identifier. *)
Definition is_upper_hex (c : ascii) : bool :=
  existsb (Ascii.eqb c) (txt "0123456789ABCDEF").

Definition upper_hex (s : text) : Prop :=
  Forall (fun c => is_upper_hex c = true) s.

(** What [gen_uuid] returns when the random source yields [r]. *)
Definition uuid_text (r : Z) : text :=
  Py.upper (Py.slice_to (Uuid.hex (Uuid.uuid4 r)) 24).

(** [matches p m]: the whole of [m] is matched by the pattern [p]. *)
Inductive matches : Re.pattern -> text -> Prop :=
  | matches_nil : matches [] []
  | matches_lit c p m : matches p m -> matches (Re.Lit c :: p) (c :: m)
  | matches_star excl p u m :
      Forall (fun c => Re.excluded excl c = false) u ->
      matches p m ->
      matches (Re.NotStar excl :: p) (u ++ m).

(** [stops_at excl rest]: the text after a greedy run of characters outside
    [excl] is empty or starts with one of [excl]. *)
Definition stops_at (excl rest : text) : Prop :=
  rest = [] \/ exists c r, rest = c :: r /\ Re.excluded excl c = true.

(** ** The script, stage by stage

    The buffer after each of the five insertion steps, as functions of the
    four identifiers and of the content read.  [run_patches] below shows
    that the script computes exactly these. *)

Record ids := Ids {
  perm_svc_file_ref : text;
  perm_svc_build_file : text;
  perm_denied_file_ref : text;
  perm_denied_build_file : text
}.

(** The identifiers a run draws, in the order of the four [gen_uuid] calls. *)
Definition ids_of (w : world) : ids :=
  Ids (uuid_text (entropy w (drawn w)))
      (uuid_text (entropy w (1 + drawn w)))
      (uuid_text (entropy w (2 + drawn w)))
      (uuid_text (entropy w (3 + drawn w))).

Definition file_refs_of (i : ids) : text :=
  new_file_refs (perm_svc_file_ref i) (perm_denied_file_ref i).

Definition build_files_of (i : ids) : text :=
  new_build_files (perm_svc_build_file i) (perm_svc_file_ref i)
                  (perm_denied_build_file i) (perm_denied_file_ref i).

Definition services_child (i : ids) : text :=
  child_line (perm_svc_file_ref i) svc_name.

Definition filescan_child (i : ids) : text :=
  child_line (perm_denied_file_ref i) denied_name.

Definition sources_of (i : ids) : text :=
  new_sources (perm_svc_build_file i) (perm_denied_build_file i).

Definition found (re : Re.pattern) (c : text) : bool :=
  match Re.search re c with Some _ => true | None => false end.

(** A step guarded by [re.search]: splice at the end of the match, or leave
    the buffer alone. *)
Definition insert_after_match (re : Re.pattern) (fragment c : text) : text :=
  match Re.search re c with
  | Some m => splice c (Z.of_nat (Re.m_end m)) fragment
  | None => c
  end.

Definition after_file_refs (i : ids) (c : text) : text :=
  splice c (Py.find c file_ref_end_marker) (file_refs_of i).

Definition after_build_files (i : ids) (c : text) : text :=
  let c1 := after_file_refs i c in
  splice c1 (Py.find c1 build_file_end_marker) (build_files_of i).

Definition after_services (i : ids) (c : text) : text :=
  insert_after_match services_re (services_child i) (after_build_files i c).

Definition after_filescan (i : ids) (c : text) : text :=
  insert_after_match filescan_re (filescan_child i) (after_services i c).

Definition patched (i : ids) (c : text) : text :=
  insert_after_match sources_re (sources_of i) (after_filescan i c).

Definition services_found (i : ids) (c : text) : bool :=
  found services_re (after_build_files i c).
Definition filescan_found (i : ids) (c : text) : bool :=
  found filescan_re (after_services i c).
Definition sources_found (i : ids) (c : text) : bool :=
  found sources_re (after_filescan i c).

(** The lines a run that reaches the write step prints. *)
Definition messages (i : ids) (c : text) : list string :=
  [ if services_found i c
    then "Added PermissionService.swift to Services group"
    else "WARNING: Could not find Services group";
    if filescan_found i c
    then "Added PermissionDeniedView.swift to FileScan group"
    else "WARNING: Could not find FileScan group";
    if sources_found i c
    then "Added both files to Sources build phase"
    else "WARNING: Could not find Sources build phase";
    "Project updated successfully" ]%string.

(** [inserted n orig out]: [out] is [orig] with text inserted at [n] cut
    points, taken from left to right; nothing of [orig] is removed or
    changed.  An inserted text may be empty. *)
Inductive inserted : nat -> text -> text -> Prop :=
  | inserted_none s : inserted 0 s s
  | inserted_cut n p x s out :
      inserted n s out -> inserted (S n) (p ++ s) (p ++ x ++ out).

(** [differs m k]: [m] and [k] disagree at a position both have. *)
Fixpoint differs (m k : text) : bool :=
  match m, k with
  | a :: m', b :: k' => if Ascii.eqb a b then differs m' k' else true
  | _, _ => false
  end.

(** [safe m k]: no occurrence of [m] in any text can begin inside [k],
    whatever follows [k]. *)
Definition safe (m k : text) : Prop :=
  forall k1 k2, k = k1 ++ k2 -> k2 <> [] -> differs m k2 = true.

Fixpoint safeb (m k : text) : bool :=
  match k with
  | [] => true
  | _ :: k' => differs m k && safeb m k'
  end.

Definition avoidsb (x : ascii) (t : text) : bool :=
  forallb (fun c => negb (Ascii.eqb c x)) t.

(** Identifiers as [gen_uuid] makes them. *)
Definition identifier (id : text) : Prop :=
  length id = 24%nat /\ upper_hex id.

Definition well_formed (i : ids) : Prop :=
  identifier (perm_svc_file_ref i) /\ identifier (perm_svc_build_file i) /\
  identifier (perm_denied_file_ref i) /\ identifier (perm_denied_build_file i).

(** The opening of a group up to its list: the comment with the name, the
    brace, a brace-free stretch, and the list key with its parenthesis. *)
Definition group_head (name list_key : string) (u : text) : text :=
  (txt "/* " ++ txt name ++ txt " */ = {") ++ u ++ (txt list_key ++ txt " = (").

Definition brace_free (u : text) : Prop :=
  Forall (fun c => Re.excluded (txt "{}") c = false) u.

Definition paren_free (v : text) : Prop :=
  Forall (fun c => Re.excluded (txt ")") c = false) v.








(** The two file-reference entries of a run, as one block. *)
Definition new_entries (i : ids) : text :=
  file_ref_entry (perm_svc_file_ref i) svc_name ++ [NL]
    ++ file_ref_entry (perm_denied_file_ref i) denied_name.

(** ** Sample inputs *)

Module Sample.

(** A random source whose first four values give four distinct identifiers. *)
Definition entropy (n : nat) : Z := Z.of_nat n * 2 ^ 100 + 12345678901234567890.

(** A world whose manifest holds [content]. *)
Definition world_with (content : text) : world :=
  World (<[pbx_path := content]> ∅) [] entropy 0 0.

(** A world without the manifest. *)
Definition empty_world : world := World ∅ [] entropy 0 0.

(** A manifest with empty but present sections. *)
Definition manifest : text :=
  txt "/* Begin PBXBuildFile section */" ++ [NL]
  ++ txt "/* End PBXBuildFile section */" ++ [NL]
  ++ txt "/* Begin PBXFileReference section */" ++ [NL]
  ++ txt "/* End PBXFileReference section */" ++ [NL]
  ++ [TAB; TAB] ++ txt "A1 /* Services */ = {" ++ [NL]
  ++ [TAB; TAB; TAB] ++ txt "children = (" ++ [NL]
  ++ [TAB; TAB; TAB] ++ txt ");" ++ [NL] ++ [TAB; TAB] ++ txt "};" ++ [NL]
  ++ [TAB; TAB] ++ txt "A2 /* FileScan */ = {" ++ [NL]
  ++ [TAB; TAB; TAB] ++ txt "children = (" ++ [NL]
  ++ [TAB; TAB; TAB] ++ txt ");" ++ [NL] ++ [TAB; TAB] ++ txt "};" ++ [NL]
  ++ [TAB; TAB] ++ txt "A3 /* Sources */ = {" ++ [NL]
  ++ [TAB; TAB; TAB] ++ txt "files = (" ++ [NL]
  ++ [TAB; TAB; TAB] ++ txt ");" ++ [NL] ++ [TAB; TAB] ++ txt "};" ++ [NL].

(** A manifest that already names the first file. *)
Definition patched_manifest : text :=
  txt "path = PermissionService.swift;".

(** A manifest without any end-of-section marker. *)
Definition bare_manifest : text := txt "// !$*UTF8*$!" ++ [NL] ++ txt "{" ++ [NL] ++ txt "}" ++ [NL].

(** A child already listed in a group. *)
Definition old_child : text :=
  [NL; TAB; TAB; TAB; TAB] ++ txt "B1 /* Scanner.swift */,".

(** A manifest whose two groups already list a child. *)
Definition manifest_with_children : text :=
  txt "/* Begin PBXBuildFile section */" ++ [NL]
  ++ txt "/* End PBXBuildFile section */" ++ [NL]
  ++ txt "/* Begin PBXFileReference section */" ++ [NL]
  ++ txt "/* End PBXFileReference section */" ++ [NL]
  ++ [TAB; TAB] ++ txt "A1 /* Services */ = {" ++ [NL]
  ++ [TAB; TAB; TAB] ++ txt "children = (" ++ old_child ++ [NL]
  ++ [TAB; TAB; TAB] ++ txt ");" ++ [NL] ++ [TAB; TAB] ++ txt "};" ++ [NL]
  ++ [TAB; TAB] ++ txt "A2 /* FileScan */ = {" ++ [NL]
  ++ [TAB; TAB; TAB] ++ txt "children = (" ++ old_child ++ [NL]
  ++ [TAB; TAB; TAB] ++ txt ");" ++ [NL] ++ [TAB; TAB] ++ txt "};" ++ [NL]
  ++ [TAB; TAB] ++ txt "A3 /* Sources */ = {" ++ [NL]
  ++ [TAB; TAB; TAB] ++ txt "files = (" ++ [NL]
  ++ [TAB; TAB; TAB] ++ txt ");" ++ [NL] ++ [TAB; TAB] ++ txt "};" ++ [NL].

(** A manifest in which the file-reference end marker sits inside the
    Services group, between its brace and its [children] list. *)
Definition services_around_marker : text :=
  txt "/* End PBXBuildFile section */" ++ [NL]
  ++ txt "A1 /* Services */ = {" ++ [NL]
  ++ txt "/* End PBXFileReference section */" ++ [NL]
  ++ txt "children = (" ++ [NL] ++ txt "); };" ++ [NL]
  ++ txt "A2 /* FileScan */ = {children = (" ++ [NL] ++ txt "); };" ++ [NL]
  ++ txt "A3 /* Sources */ = {files = (" ++ [NL] ++ txt "); };" ++ [NL].

(** A manifest without a Services group, in which the file-reference end
    marker sits inside the FileScan group. *)
Definition filescan_around_marker : text :=
  txt "/* End PBXBuildFile section */" ++ [NL]
  ++ txt "A2 /* FileScan */ = {" ++ [NL]
  ++ txt "/* End PBXFileReference section */" ++ [NL]
  ++ txt "children = (" ++ [NL] ++ txt "); };" ++ [NL]
  ++ txt "A3 /* Sources */ = {files = (" ++ [NL] ++ txt "); };" ++ [NL].

(** The sample manifest without its Services group. *)
Definition manifest_without_services : text :=
  txt "/* Begin PBXBuildFile section */" ++ [NL]
  ++ txt "/* End PBXBuildFile section */" ++ [NL]
  ++ txt "/* Begin PBXFileReference section */" ++ [NL]
  ++ txt "/* End PBXFileReference section */" ++ [NL]
  ++ [TAB; TAB] ++ txt "A2 /* FileScan */ = {" ++ [NL]
  ++ [TAB; TAB; TAB] ++ txt "children = (" ++ [NL]
  ++ [TAB; TAB; TAB] ++ txt ");" ++ [NL] ++ [TAB; TAB] ++ txt "};" ++ [NL]
  ++ [TAB; TAB] ++ txt "A3 /* Sources */ = {" ++ [NL]
  ++ [TAB; TAB; TAB] ++ txt "files = (" ++ [NL]
  ++ [TAB; TAB; TAB] ++ txt ");" ++ [NL] ++ [TAB; TAB] ++ txt "};" ++ [NL].




End Sample.

(** ** Repeated runs *)

(** The world after [n] runs in a row. *)
Fixpoint runs (n : nat) (w : world) : world :=
  match n with
  | O => w
  | S n' => runs n' (snd (run w))
  end.

(** A text with two Services groups. *)
Definition two_services : text :=
  txt "A1 /* Services */ = {children = (" ++ [NL] ++ txt "); };" ++ [NL]
  ++ txt "A9 /* Services */ = {children = (" ++ [NL] ++ txt "); };" ++ [NL].

(** ** The file-reference table *)




(** A manifest whose Services group lists two children, the first with a
    parenthesis in its name. *)
Definition services_with_paren_child : text :=
  txt "A1 /* Services */ = {children = ("
  ++ [NL; TAB; TAB; TAB; TAB] ++ txt "B1 /* Scanner (old).swift */,"
  ++ [NL; TAB; TAB; TAB; TAB] ++ txt "B2 /* Other.swift */,"
  ++ [NL] ++ txt "); };" ++ [NL].

(** * Properties of the primitives *)

Section Primitives.

Lemma starts_with_spec p s :
  Py.starts_with p s = true <-> exists r, s = p ++ r.
Proof.
  revert s. induction p as [|a p IH]; intros s; simpl.
  - split; eauto.
  - destruct s as [|b s].
    + split; [discriminate | intros [r Hr]; discriminate].
    + destruct (Ascii.eqb_spec a b) as [->|Hne].
      * rewrite IH. split; intros [r Hr]; exists r; congruence.
      * split; [discriminate | intros [r Hr]; congruence].
Qed.

Lemma occurs_nil_or_tail sub x s :
  occurs sub (x :: s) <-> (exists r, x :: s = sub ++ r) \/ occurs sub s.
Proof.
  split.
  - intros [[|y a] [b Hb]]; simpl in Hb.
    + left. eauto.
    + right. exists a, b. congruence.
  - intros [[r Hr] | [a [b Hb]]].
    + exists [], r. exact Hr.
    + exists (x :: a), b. simpl. congruence.
Qed.

Lemma contains_spec sub s : Py.contains sub s = true <-> occurs sub s.
Proof.
  induction s as [|x s IH]; simpl.
  - destruct (Py.starts_with sub []) eqn:E.
    + apply starts_with_spec in E as [r Hr]. split; [|done].
      intros _. exists [], r. exact Hr.
    + split; [discriminate|]. intros [a [b Hb]].
      destruct a; [|discriminate]. simpl in Hb.
      assert (Py.starts_with sub [] = true) by (apply starts_with_spec; eauto).
      congruence.
  - destruct (Py.starts_with sub (x :: s)) eqn:E.
    + apply starts_with_spec in E. split; [|done].
      intros _. apply occurs_nil_or_tail. by left.
    + rewrite IH, occurs_nil_or_tail. split; [by right|].
      intros [H|H]; [|done]. apply starts_with_spec in H. congruence.
Qed.

Lemma contains_false sub s : Py.contains sub s = false <-> ~ occurs sub s.
Proof.
  rewrite <- contains_spec. by destruct (Py.contains sub s).
Qed.

Lemma find_from_absent s sub i :
  ~ occurs sub s -> Py.find_from s sub i = -1.
Proof.
  revert i. induction s as [|x s IH]; intros i Hno; simpl.
  - destruct (Py.starts_with sub []) eqn:E; [|done].
    apply starts_with_spec in E as [r Hr]. destruct Hno. by exists [], r.
  - destruct (Py.starts_with sub (x :: s)) eqn:E.
    + apply starts_with_spec in E. destruct Hno.
      apply occurs_nil_or_tail. by left.
    + apply IH. intros H. apply Hno, occurs_nil_or_tail. by right.
Qed.

Lemma find_from_present s sub i :
  occurs sub s ->
  exists a, first_at sub s a /\ Py.find_from s sub i = i + Z.of_nat (length a).
Proof.
  revert i. induction s as [|x s IH]; intros i Hocc; simpl.
  - destruct Hocc as [a [b Hb]].
    destruct a; [|discriminate]. simpl in Hb.
    assert (E : Py.starts_with sub [] = true) by (apply starts_with_spec; eauto).
    rewrite E. exists []. split; [|simpl; lia].
    split; [by exists b | simpl; lia].
  - destruct (Py.starts_with sub (x :: s)) eqn:E.
    + apply starts_with_spec in E as [r Hr]. exists []. split; [|simpl; lia].
      split; [by exists r | simpl; lia].
    + apply occurs_nil_or_tail in Hocc as [H|H].
      { apply starts_with_spec in H. congruence. }
      destruct (IH (i + 1) H) as [a [[[b Hb] Hmin] Hf]].
      exists (x :: a). split; [|rewrite Hf; simpl length; lia].
      split; [exists b; simpl; congruence|].
      intros [|y a'] b' Heq; simpl in Heq.
      * assert (Py.starts_with sub (x :: s) = true)
          by (apply starts_with_spec; eauto). congruence.
      * injection Heq as -> Heq. simpl. specialize (Hmin a' b' Heq). lia.
Qed.

Lemma find_absent s sub : ~ occurs sub s -> Py.find s sub = -1.
Proof. apply find_from_absent. Qed.

Lemma find_present s sub :
  occurs sub s ->
  exists a, first_at sub s a /\ Py.find s sub = Z.of_nat (length a).
Proof. intros H. destruct (find_from_present s sub 0 H) as [a [? ?]]. eauto. Qed.

Lemma slice_join s i : Py.slice_to s i ++ Py.slice_from s i = s.
Proof. apply take_drop. Qed.

Lemma slice_bound_nat n k : (k <= n)%nat -> Py.slice_bound n (Z.of_nat k) = k.
Proof.
  intros H. unfold Py.slice_bound.
  destruct (Z.ltb_spec (Z.of_nat k) 0); lia.
Qed.

Lemma slice_to_app a b : Py.slice_to (a ++ b) (Z.of_nat (length a)) = a.
Proof.
  unfold Py.slice_to. rewrite slice_bound_nat by (rewrite length_app; lia).
  by rewrite take_app_length.
Qed.

Lemma slice_from_app a b : Py.slice_from (a ++ b) (Z.of_nat (length a)) = b.
Proof.
  unfold Py.slice_from. rewrite slice_bound_nat by (rewrite length_app; lia).
  by rewrite drop_app_length.
Qed.

Lemma splice_at a b x : splice (a ++ b) (Z.of_nat (length a)) x = a ++ x ++ b.
Proof. unfold splice. by rewrite slice_to_app, slice_from_app. Qed.

(** With the bound [-1] the cut falls before the last character, or
    nowhere when there is none. *)
Lemma splice_minus_one s x :
  exists body tail, s = body ++ tail /\ length tail = Nat.min 1 (length s) /\
                    splice s (-1) x = body ++ x ++ tail.
Proof.
  exists (Py.slice_to s (-1)), (Py.slice_from s (-1)).
  split; [by rewrite slice_join|]. split; [|done].
  unfold Py.slice_from. rewrite length_drop. unfold Py.slice_bound.
  change (-1 <? 0) with true. cbv iota. lia.
Qed.

Lemma splice_last body c x : splice (body ++ [c]) (-1) x = body ++ x ++ [c].
Proof.
  unfold splice, Py.slice_to, Py.slice_from, Py.slice_bound.
  change (-1 <? 0) with true. cbv iota.
  rewrite length_app. simpl length.
  replace (Z.to_nat _) with (length body) by lia.
  by rewrite take_app_length, drop_app_length.
Qed.

(** Every splice is an insertion: the buffer is cut in two and the fragment
    is put between the halves. *)
Lemma splice_inserts s i x :
  exists pre post, s = pre ++ post /\ splice s i x = pre ++ x ++ post.
Proof.
  exists (Py.slice_to s i), (Py.slice_from s i). by rewrite slice_join.
Qed.

End Primitives.

(** * Identifiers *)

Section Identifiers.

Lemma gen_uuid_run w :
  gen_uuid w =
  (Done (uuid_text (entropy w (drawn w))),
   World (files w) (console w) (entropy w) (S (drawn w)) (writes w)).
Proof. reflexivity. Qed.

Lemma nibble_range x k : 0 <= Z.land (Z.shiftr x k) 15 < 16.
Proof.
  change 15 with (Z.ones 4). rewrite Z.land_ones by lia.
  apply Z.mod_pos_bound. lia.
Qed.

(** [uuid4] stays within 128 bits, the range [Uuid.hex] formats. *)
Lemma const_high_bit a k n :
  0 <= a -> 0 <= k -> Z.log2 a + k < n -> Z.testbit (Z.shiftl a k) n = false.
Proof.
  intros Ha Hk Hn. pose proof (Z.log2_nonneg a).
  rewrite Z.shiftl_spec by lia.
  apply Z.bits_above_log2; lia.
Qed.

Lemma uuid4_range r : 0 <= Uuid.uuid4 r < 2 ^ 128.
Proof.
  unfold Uuid.uuid4. set (x := r mod 2 ^ 128).
  assert (Hx : 0 <= x < 2 ^ 128) by (apply Z.mod_pos_bound; lia).
  set (y := Z.lor _ _).
  assert (Hy : 0 <= y).
  { unfold y. apply Z.lor_nonneg. split; [|done].
    apply Z.land_nonneg. left. apply Z.lor_nonneg. split; [|done].
    apply Z.land_nonneg. left. lia. }
  split; [exact Hy|].
  assert (E : Z.land y (Z.ones 128) = y).
  { apply Z.bits_inj'. intros n Hn. rewrite Z.land_spec.
    destruct (Z.lt_ge_cases n 128) as [Hlt|Hge].
    - rewrite Z.ones_spec_low by lia. apply andb_true_r.
    - rewrite Z.ones_spec_high by lia. rewrite andb_false_r. symmetry.
      unfold y. repeat (rewrite Z.lor_spec || rewrite Z.land_spec).
      assert (Hxn : Z.testbit x n = false).
      { destruct (Z.eq_dec x 0) as [->|Hne]; [apply Z.bits_0|].
        apply Z.bits_above_log2; [lia|].
        apply Z.log2_lt_pow2; [lia|].
        apply Z.lt_le_trans with (2 ^ 128); [lia | apply Z.pow_le_mono_r; lia]. }
      rewrite Hxn.
      rewrite (const_high_bit 0x8000 48)
        by (try change (Z.log2 0x8000) with 15; lia).
      rewrite (const_high_bit 4 76)
        by (try change (Z.log2 4) with 2; lia).
      reflexivity. }
  rewrite Z.land_ones in E by lia. rewrite <- E.
  apply Z.mod_pos_bound. lia.
Qed.

Lemma hex_digit_upper d :
  0 <= d < 16 -> is_upper_hex (Py.upper_char (Uuid.hex_digit d)) = true.
Proof.
  intros H.
  assert (Hd : In d (map Z.of_nat (seq 0 16))).
  { apply in_map_iff. exists (Z.to_nat d). split; [lia|].
    apply in_seq. lia. }
  simpl in Hd.
  repeat (destruct Hd as [<-|Hd]; [reflexivity|]). destruct Hd.
Qed.

Lemma hex_length n : length (Uuid.hex n) = 32%nat.
Proof. reflexivity. Qed.

Lemma uuid_text_length r : length (uuid_text r) = 24%nat.
Proof. reflexivity. Qed.

Lemma uuid_text_upper_hex r : upper_hex (uuid_text r).
Proof.
  unfold upper_hex, uuid_text, Py.upper, Py.slice_to, Uuid.hex.
  apply Forall_map, Forall_take, Forall_map, Forall_forall.
  intros k _. apply hex_digit_upper, nibble_range.
Qed.

Lemma upper_hex_cases c :
  is_upper_hex c = true -> In c (txt "0123456789ABCDEF").
Proof.
  unfold is_upper_hex. rewrite existsb_exists.
  intros [x [Hx E]]. apply Ascii.eqb_eq in E. by subst.
Qed.

End Identifiers.

(** * Regular expressions *)

Section Regex.

(** The greedy star consumed a run [u] outside the class, and the rest of
    the pattern matched what follows. *)
Lemma star_sound excl k s n :
  Re.star excl k s = Some n ->
  exists u t j, s = u ++ t /\ Forall (fun c => Re.excluded excl c = false) u /\
    k t = Some j /\ n = (length u + j)%nat.
Proof.
  revert n. induction s as [|x s IH]; intros n; simpl.
  - intros E. exists [], [], n. by repeat split.
  - destruct (Re.excluded excl x) eqn:Ex.
    + intros E. exists [], (x :: s), n. by repeat split.
    + destruct (Re.star excl k s) as [m|] eqn:Em.
      * intros [= <-]. destruct (IH _ eq_refl) as (u & t & j & -> & Hu & Hj & ->).
        exists (x :: u), t, j. repeat split; try done. by constructor.
      * intros E. exists [], (x :: s), n. by repeat split.
Qed.

(** When nothing follows the star it never gives a character back. *)
Lemma star_last excl s n :
  Re.star excl (fun _ => Some 0%nat) s = Some n -> stops_at excl (drop n s).
Proof.
  revert n. induction s as [|x s IH]; intros n; simpl.
  - intros [= <-]. by left.
  - destruct (Re.excluded excl x) eqn:Ex.
    + intros [= <-]. right. by exists x, s.
    + destruct (Re.star excl _ s) as [m|] eqn:Em.
      * intros [= <-]. simpl. by apply IH.
      * exfalso. clear -Em. induction s as [|y s IHs]; [discriminate|].
        simpl in Em. destruct (Re.excluded excl y); [discriminate|].
        destruct (Re.star excl _ s); [discriminate | by apply IHs].
Qed.

Lemma star_complete excl k u t :
  Forall (fun c => Re.excluded excl c = false) u ->
  is_Some (k t) -> is_Some (Re.star excl k (u ++ t)).
Proof.
  intros Hu Hk. induction Hu as [|x u Hx Hu IH]; simpl.
  - destruct t as [|y t]; simpl; [done|].
    destruct (Re.excluded excl y); [done|].
    by destruct (Re.star excl k t).
  - rewrite Hx. destruct IH as [m ->]. by eexists.
Qed.

(** What the engine reports is a match of the pattern. *)
Lemma match_here_sound p s n :
  Re.match_here p s = Some n ->
  exists m rest, s = m ++ rest /\ length m = n /\ matches p m.
Proof.
  revert s n. induction p as [|[c|excl] p IH]; intros s n; simpl.
  - intros [= <-]. exists [], s. repeat split. constructor.
  - destruct s as [|x s]; [discriminate|].
    destruct (Ascii.eqb_spec c x) as [->|]; [|discriminate].
    destruct (Re.match_here p s) as [k|] eqn:E; [|discriminate].
    intros [= <-]. destruct (IH _ _ E) as (m & rest & -> & <- & Hm).
    exists (x :: m), rest. repeat split. by constructor.
  - intros E. apply star_sound in E as (u & t & j & -> & Hu & Hj & ->).
    destruct (IH _ _ Hj) as (m & rest & -> & <- & Hm).
    exists (u ++ m), rest. rewrite <- app_assoc, length_app.
    repeat split. by constructor.
Qed.

(** A pattern that ends in a greedy star stops only at the end of the text
    or before a character of the excluded class. *)
Lemma match_here_stops p excl s n :
  Re.match_here (p ++ [Re.NotStar excl]) s = Some n ->
  stops_at excl (drop n s).
Proof.
  revert s n. induction p as [|[c|excl'] p IH]; intros s n; simpl.
  - apply star_last.
  - destruct s as [|x s]; [discriminate|].
    destruct (Ascii.eqb c x); [|discriminate].
    destruct (Re.match_here (p ++ [Re.NotStar excl]) s) as [k|] eqn:E;
      [|discriminate].
    intros [= <-]. simpl. by apply IH.
  - intros E. apply star_sound in E as (u & t & j & -> & Hu & Hj & ->).
    rewrite drop_app_add'; [|done]. by apply IH.
Qed.

(** Whenever some prefix of the text matches, the engine finds a match. *)
Lemma match_here_complete p m rest :
  matches p m -> is_Some (Re.match_here p (m ++ rest)).
Proof.
  induction 1 as [|c p m Hm IH|excl p u m Hu Hm IH]; simpl.
  - by eexists.
  - rewrite Ascii.eqb_refl. destruct IH as [k ->]. by eexists.
  - rewrite <- app_assoc. by apply star_complete.
Qed.

Lemma search_from_sound p s i mt :
  Re.search_from p s i = Some mt ->
  exists a m b, s = a ++ m ++ b /\ matches p m /\
    Re.match_here p (m ++ b) = Some (length m) /\
    Re.m_start mt = (i + length a)%nat /\
    Re.m_end mt = (i + length a + length m)%nat.
Proof.
  revert i. induction s as [|x s IH]; intros i; simpl.
  - destruct (Re.match_here p []) as [n|] eqn:E; [|discriminate].
    intros [= <-]. destruct (match_here_sound _ _ _ E) as (m & b & Hs & <- & Hm).
    exists [], m, b. simpl. rewrite <- Hs, E. repeat split; try done; lia.
  - destruct (Re.match_here p (x :: s)) as [n|] eqn:E.
    + intros [= <-]. destruct (match_here_sound _ _ _ E) as (m & b & Hs & <- & Hm).
      exists [], m, b. simpl. rewrite <- Hs, E. repeat split; try done; lia.
    + intros H. destruct (IH _ H) as (a & m & b & -> & Hm & Hh & Hst & Hen).
      exists (x :: a), m, b. simpl. repeat split; try done; lia.
Qed.

Lemma search_from_complete p a m b i :
  matches p m -> is_Some (Re.search_from p (a ++ m ++ b) i).
Proof.
  intros Hm. revert i. induction a as [|x a IH]; intros i.
  - simpl. destruct (match_here_complete p m b Hm) as [n Hn].
    destruct (m ++ b); simpl; rewrite Hn; by eexists.
  - simpl. destruct (Re.match_here p (x :: a ++ m ++ b)); [by eexists|].
    apply IH.
Qed.

(** [re.search] fails exactly on the texts without a matching substring. *)
Lemma search_None p s :
  Re.search p s = None <-> ~ exists a m b, s = a ++ m ++ b /\ matches p m.
Proof.
  split.
  - intros E (a & m & b & -> & Hm).
    destruct (search_from_complete p a m b 0 Hm) as [mt Hmt].
    unfold Re.search in E. congruence.
  - intros Hno. destruct (Re.search p s) as [mt|] eqn:E; [|done].
    destruct (search_from_sound _ _ _ _ E) as (a & m & b & Hs & Hm & _).
    destruct Hno. by exists a, m, b.
Qed.

(** The match found by [re.search], as a cut of the text: the match [m]
    sits between [a] and [b], and [b] is where the pattern's final star
    stopped. *)
Lemma search_ends p excl s mt :
  Re.search (p ++ [Re.NotStar excl]) s = Some mt ->
  exists a m b, s = a ++ m ++ b /\ matches (p ++ [Re.NotStar excl]) m /\
    stops_at excl b /\ Re.m_end mt = length (a ++ m).
Proof.
  intros E. destruct (search_from_sound _ _ _ _ E)
    as (a & m & b & Hs & Hm & Hh & _ & Hen).
  exists a, m, b. repeat split; try done.
  - apply match_here_stops in Hh. by rewrite drop_app_length in Hh.
  - rewrite length_app. lia.
Qed.

End Regex.

(** * The three ways a run ends *)

Section Runs.

Lemma run_missing w :
  files w !! pbx_path = None ->
  run w = (1, World (files w) (console w ++ ["Error: project.pbxproj not found"%string])
                    (entropy w) (drawn w) (writes w)).
Proof.
  intros H. unfold run, script, bind, read_file. by rewrite H.
Qed.

Lemma run_guarded w content :
  files w !! pbx_path = Some content ->
  Py.contains guard_marker content = true ->
  run w = (0, World (files w) (console w ++ ["Files already added"%string])
                    (entropy w) (drawn w) (writes w)).
Proof.
  intros H G. unfold run, script, bind, read_file. by rewrite H, G.
Qed.

Lemma run_patches w content :
  files w !! pbx_path = Some content ->
  Py.contains guard_marker content = false ->
  run w = (0, World (<[pbx_path := patched (ids_of w) content]> (files w))
                    (console w ++ messages (ids_of w) content)
                    (entropy w) (4 + drawn w) (S (writes w))).
Proof.
  intros H G. unfold run, script, bind, read_file. rewrite H, G.
  rewrite !gen_uuid_run. cbn [files console entropy drawn writes].
  unfold messages, services_found, filescan_found, sources_found, found,
    patched, after_filescan, after_services, insert_after_match.
  fold (after_build_files (ids_of w) content).
  change (splice (splice content _ _) _ _) with (after_build_files (ids_of w) content).
  destruct (Re.search services_re _) as [m1|];
    cbn [bind print ret files console entropy drawn writes];
    (destruct (Re.search filescan_re _) as [m2|];
     cbn [bind print ret files console entropy drawn writes];
     (destruct (Re.search sources_re _) as [m3|];
      cbn [bind print ret write_file exit_status files console entropy drawn writes];
      rewrite <- !app_assoc; reflexivity)).
Qed.

End Runs.

(** * Insertions into a text *)

Section Insertions.

Lemma occurs_refl s : occurs s s.
Proof. exists [], []. by rewrite app_nil_r. Qed.

Lemma occurs_trans a b c : occurs a b -> occurs b c -> occurs a c.
Proof.
  intros (x & y & ->) (x' & y' & ->).
  exists (x' ++ x), (y ++ y'). by rewrite <- !app_assoc.
Qed.

Lemma occurs_middle sub pre post : occurs sub (pre ++ sub ++ post).
Proof. by exists pre, post. Qed.

Lemma occurs_app_r sub a b : occurs sub b -> occurs sub (a ++ b).
Proof. intros (x & y & ->). exists (a ++ x), y. by rewrite <- app_assoc. Qed.

Lemma occurs_app_l sub a b : occurs sub a -> occurs sub (a ++ b).
Proof. intros (x & y & ->). exists x, (y ++ b). by rewrite <- !app_assoc. Qed.

Lemma occurs_in_insertion sub x pre post :
  occurs sub x -> occurs sub (pre ++ x ++ post).
Proof. intros H. by apply occurs_app_r, occurs_app_l. Qed.

(** An occurrence of [k] survives an insertion unless the cut falls
    strictly inside it. *)
Lemma occurs_insert k pre post x :
  occurs k (pre ++ post) ->
  (forall k1 k2 b, k = k1 ++ k2 -> k1 <> [] -> k2 <> [] -> k2 ++ b <> post) ->
  occurs k (pre ++ x ++ post).
Proof.
  intros (a & b & E) Hcut.
  apply app_eq_app in E as [l [[Hpre E]|[Ha Hpost]]].
  - (* the cut is at or after the start of the occurrence *)
    subst pre. apply app_eq_app in E as [l' [[Hk Hpost]|[Hl Hb]]].
    + destruct l as [|c l].
      { simpl in Hk. subst l' post. rewrite app_nil_r.
        exists (a ++ x), b. by rewrite <- !app_assoc. }
      destruct l' as [|c' l'].
      { rewrite app_nil_r in Hk. simpl in Hpost. subst k post.
        exists a, (x ++ b). by rewrite <- !app_assoc. }
      exfalso. by eapply (Hcut (c :: l) (c' :: l') b).
    + subst l b. exists a, (l' ++ x ++ post). by rewrite <- !app_assoc.
  - subst a post. exists (pre ++ x ++ l), b. by rewrite <- !app_assoc.
Qed.

(** A text without [)] survives an insertion made where a pattern's final
    star stopped. *)
Lemma occurs_insert_stop k pre post x exc :
  Forall (fun c => Re.excluded exc c = false) k ->
  stops_at exc post ->
  occurs k (pre ++ post) -> occurs k (pre ++ x ++ post).
Proof.
  intros Hk Hstop Hocc. apply occurs_insert; [done|].
  intros k1 [|c k2] b -> _ Hne E; [done|].
  destruct Hstop as [->|(c' & r & -> & Hc')]; [done|].
  injection E as -> _.
  apply Forall_app in Hk as [_ Hk]. apply Forall_cons in Hk as [Hk _].
  congruence.
Qed.

Lemma differs_sound m k r r' : differs m k = true -> k ++ r <> m ++ r'.
Proof.
  revert k. induction m as [|a m IH]; intros [|b k]; simpl; try done.
  destruct (Ascii.eqb_spec a b) as [->|Hne]; intros H E.
  - injection E as E. by eapply IH.
  - congruence.
Qed.

Lemma differs_app m k r : differs m k = true -> differs m (k ++ r) = true.
Proof.
  revert k. induction m as [|a m IH]; intros [|b k]; simpl; try done.
  destruct (Ascii.eqb a b); [apply IH | done].
Qed.

Lemma safeb_safe m k : safeb m k = true -> safe m k.
Proof.
  induction k as [|c k IH]; intros H k1 k2 E Hne.
  - by destruct k1, k2.
  - simpl in H. apply andb_true_iff in H as [Hd Hs].
    destruct k1 as [|c1 k1]; simpl in E.
    + by subst k2.
    + injection E as _ E. by eapply IH.
Qed.

Lemma safe_app m a b : safe m a -> safe m b -> safe m (a ++ b).
Proof.
  intros Ha Hb k1 k2 E Hne.
  apply app_eq_app in E as [l [[-> E]|[-> E]]].
  - destruct l as [|c l].
    + simpl in E. subst k2. by apply (Hb [] b).
    + rewrite E. apply differs_app. by apply (Ha k1 (c :: l)).
  - by eapply Hb.
Qed.

(** A run of characters none of which begins [m] is safe. *)
Lemma safe_chars a m k : Forall (fun c => c <> a) k -> safe (a :: m) k.
Proof.
  intros Hk k1 [|c k2] -> Hne; [done|].
  apply Forall_app in Hk as [_ Hk]. apply Forall_cons in Hk as [Hc _].
  simpl. destruct (Ascii.eqb_spec a c); [congruence | done].
Qed.

Lemma safe_not_occurs c m k : safe (c :: m) k -> ~ occurs (c :: m) k.
Proof.
  intros Hs (a & b & ->).
  specialize (Hs a ((c :: m) ++ b) eq_refl ltac:(done)).
  by apply (differs_sound _ _ [] b) in Hs; rewrite app_nil_r in Hs.
Qed.

(** A text that is [safe] against the marker survives an insertion made in
    front of an occurrence of the marker. *)
Lemma occurs_insert_marker m k pre r x :
  safe m k ->
  occurs k (pre ++ m ++ r) -> occurs k (pre ++ x ++ m ++ r).
Proof.
  intros Hs Hocc. apply occurs_insert; [done|].
  intros k1 k2 b -> _ Hne E.
  by apply (differs_sound m k2 b r (Hs k1 k2 eq_refl Hne)).
Qed.

(** A text followed by one more character survives an insertion made
    before the last character of the buffer. *)
Lemma occurs_insert_last k c pre post x :
  (length post <= 1)%nat ->
  occurs (k ++ [c]) (pre ++ post) -> occurs k (pre ++ x ++ post).
Proof.
  intros Hlen (a & b & E).
  destruct post as [|y [|? ?]]; [| |simpl in Hlen; lia].
  - rewrite app_nil_r in *. subst pre.
    exists a, ([c] ++ b ++ x). by rewrite <- !app_assoc.
  - destruct b as [|z b _] using rev_ind.
    + rewrite app_nil_r, !app_assoc in E.
      apply app_inj_tail in E as [-> ->].
      exists a, (x ++ [c]). by rewrite <- !app_assoc.
    + rewrite !app_assoc in E. apply app_inj_tail in E as [-> ->].
      exists a, ([c] ++ b ++ x ++ [z]). by rewrite <- !app_assoc.
Qed.

(** Inserting a text that is [safe] against [m] and whose first character
    is not in [m] creates no occurrence of [m]. *)
Lemma occurs_insert_inv c m x0 x pre post :
  safe (c :: m) (x0 :: x) -> x0 ∉ c :: m ->
  occurs (c :: m) (pre ++ (x0 :: x) ++ post) -> occurs (c :: m) (pre ++ post).
Proof.
  intros Hs Hx0 (a & b & E).
  apply app_eq_app in E as [l [[Hpre E]|[Ha E]]].
  - (* the occurrence starts inside [pre] *)
    subst pre. apply app_eq_app in E as [l' [[Hm E]|[Hl E]]].
    + destruct l' as [|y l'].
      * rewrite app_nil_r in Hm. subst l. exists a, post.
        by rewrite <- !app_assoc.
      * exfalso. simpl in E. injection E as -> _. apply Hx0. rewrite Hm.
        apply elem_of_app. right. by left.
    + subst l. exists a, (l' ++ post). by rewrite <- !app_assoc.
  - (* the occurrence starts at or after the start of the inserted text *)
    subst a. apply app_eq_app in E as [l' [[Hx E]|[Hl E]]].
    + destruct l' as [|y l'].
      * simpl in E. subst post. by exists pre, b.
      * exfalso. symmetry in E.
        by apply (differs_sound _ _ post b (Hs l (y :: l') Hx ltac:(done))).
    + subst l post. exists (pre ++ l'), b. by rewrite <- !app_assoc.
Qed.

Lemma avoidsb_notin x t : avoidsb x t = true -> x ∉ t.
Proof.
  unfold avoidsb. rewrite forallb_forall. intros H Hin.
  apply list_elem_of_In, H in Hin. by rewrite Ascii.eqb_refl in Hin.
Qed.

Lemma notin_Forall_ne (x : ascii) t : x ∉ t -> Forall (fun c => c <> x) t.
Proof.
  intros H. apply Forall_forall. intros c Hc ->. by apply H, list_elem_of_In.
Qed.

Lemma notin_not_excluded (x : ascii) t :
  x ∉ t -> Forall (fun c => Re.excluded [x] c = false) t.
Proof.
  intros H. apply Forall_forall. intros c Hc. unfold Re.excluded. simpl.
  rewrite orb_false_r. apply Ascii.eqb_neq. intros ->.
  by apply H, list_elem_of_In.
Qed.

(** ** Counting cuts *)

Lemma inserted_more n s out : inserted n s out -> inserted (S n) s out.
Proof. intros H. by apply (inserted_cut n [] [] s out). Qed.

Lemma inserted_insert n s a b y :
  inserted n s (a ++ b) -> inserted (S n) s (a ++ y ++ b).
Proof.
  remember (a ++ b) as out eqn:E. intros H. revert a b E.
  induction H as [s|n p x s out H IH]; intros a b E.
  - subst s. by apply inserted_cut, inserted_none.
  - apply app_eq_app in E as [l [[Hp E]|[Ha E]]].
    + (* the new cut is inside [p] *)
      subst p b. rewrite <- !app_assoc.
      apply (inserted_cut (S n) a y), (inserted_cut n l x), H.
    + subst a. apply app_eq_app in E as [l' [[Hx E]|[Hl E]]].
      * (* the new cut is inside the inserted [x] *)
        subst x b. apply inserted_more.
        replace ((p ++ l) ++ y ++ l' ++ out) with (p ++ (l ++ y ++ l') ++ out)
          by (by rewrite <- !app_assoc).
        by apply inserted_cut.
      * subst l. specialize (IH l' b E).
        replace ((p ++ x ++ l') ++ y ++ b) with (p ++ x ++ (l' ++ y ++ b))
          by (by rewrite <- !app_assoc).
        by apply inserted_cut.
Qed.

Lemma inserted_sublist n s out : inserted n s out -> s `sublist_of` out.
Proof.
  induction 1 as [s|n p x s out H IH]; [done|].
  apply sublist_app; [done|]. by apply sublist_inserts_l.
Qed.

Lemma inserted_splice n s c i x :
  inserted n s c -> inserted (S n) s (splice c i x).
Proof.
  intros H. destruct (splice_inserts c i x) as (pre & post & -> & ->).
  by apply inserted_insert.
Qed.

Lemma splice_length c i x : length (splice c i x) = (length c + length x)%nat.
Proof.
  destruct (splice_inserts c i x) as (pre & post & -> & ->).
  rewrite !length_app. lia.
Qed.

End Insertions.

(** * The inserted fragments *)

Section Fragments.

Lemma ids_of_well_formed w : well_formed (ids_of w).
Proof.
  repeat split; try apply uuid_text_length; apply uuid_text_upper_hex.
Qed.

Lemma hex_notin x id : is_upper_hex x = false -> upper_hex id -> x ∉ id.
Proof.
  intros Hx Hid Hin. unfold upper_hex in Hid. rewrite Forall_forall in Hid.
  apply Hid in Hin. congruence.
Qed.

Lemma hex_safe x m id :
  is_upper_hex x = false -> upper_hex id -> safe (x :: m) id.
Proof.
  intros Hx Hid. apply safe_chars, notin_Forall_ne. by apply hex_notin.
Qed.

End Fragments.

(** The four facts [upper_hex] of well-formed identifiers. *)
Ltac use_wf H := pose proof H as ((_ & ?) & (_ & ?) & (_ & ?) & (_ & ?)).

(** [x ∉ t] for a fragment [t] built from literals and identifiers. *)
Ltac solve_notin :=
  rewrite ?not_elem_of_app; repeat split;
  first [ apply avoidsb_notin; vm_compute; reflexivity
        | apply hex_notin; [reflexivity | assumption] ].

(** [safe m t] for such a fragment. *)
Ltac solve_safe :=
  first [ apply safeb_safe; vm_compute; reflexivity
        | apply hex_safe; [reflexivity | assumption]
        | apply safe_app; solve_safe ].

Section FragmentFacts.

Variable i : ids.
Hypothesis Hwf : well_formed i.

Lemma file_refs_no_paren : ")"%char ∉ file_refs_of i.
Proof using Hwf.
  unfold file_refs_of, new_file_refs, file_ref_entry. use_wf Hwf. solve_notin.
Qed.

Lemma build_files_no_paren : ")"%char ∉ build_files_of i.
Proof using Hwf.
  unfold build_files_of, new_build_files, build_file_entry. use_wf Hwf. solve_notin.
Qed.

Lemma services_child_no_paren : ")"%char ∉ services_child i.
Proof using Hwf. unfold services_child, child_line. use_wf Hwf. solve_notin. Qed.

Lemma filescan_child_no_paren : ")"%char ∉ filescan_child i.
Proof using Hwf. unfold filescan_child, child_line. use_wf Hwf. solve_notin. Qed.

Lemma sources_no_paren : ")"%char ∉ sources_of i.
Proof using Hwf. unfold sources_of, new_sources. use_wf Hwf. solve_notin. Qed.

Lemma file_ref_entry_safe id name :
  upper_hex id -> name = svc_name \/ name = denied_name ->
  safe build_file_end_marker (file_ref_entry id name).
Proof.
  intros Hid [-> | ->]; unfold file_ref_entry;
    change build_file_end_marker with ("/"%char :: txt "* End PBXBuildFile section */");
    solve_safe.
Qed.

Lemma file_refs_safe : safe build_file_end_marker (file_refs_of i).
Proof using Hwf.
  unfold file_refs_of, new_file_refs, file_ref_entry.
  change build_file_end_marker with ("/"%char :: txt "* End PBXBuildFile section */").
  use_wf Hwf. solve_safe.
Qed.

End FragmentFacts.

(** * The lengths of the fragments *)

Section Growth.

Lemma fragment_lengths w :
  length (file_refs_of (ids_of w)) = 368%nat /\
  length (build_files_of (ids_of w)) = 326%nat /\
  length (services_child (ids_of w)) = 60%nat /\
  length (filescan_child (ids_of w)) = 63%nat /\
  length (sources_of (ids_of w)) = 145%nat.
Proof. repeat split; reflexivity. Qed.

End Growth.

(** * The insertion steps *)

Section Stages.

Lemma matches_nil_inv m : matches [] m -> m = [].
Proof. by inversion 1. Qed.

Lemma matches_lit_inv l p m :
  matches (Re.lit l ++ p) m -> exists w, m = l ++ w /\ matches p w.
Proof.
  revert m. induction l as [|c l IH]; intros m; simpl.
  - intros H. by exists m.
  - inversion 1 as [|c' p' m' Hm|]; subst.
    destruct (IH _ Hm) as (w & -> & Hw). by exists w.
Qed.

Lemma matches_star_inv excl p m :
  matches (Re.NotStar excl :: p) m ->
  exists u w, m = u ++ w /\ Forall (fun c => Re.excluded excl c = false) u /\
              matches p w.
Proof. inversion 1; subst. eauto. Qed.

(** What a group pattern matches: the head of the group, then the
    parenthesis-free text taken by the final star. *)
Lemma matches_group name key m :
  matches (group_pattern name key) m ->
  exists u v, m = group_head name key u ++ v /\ brace_free u /\ paren_free v.
Proof.
  unfold group_pattern. intros H.
  apply matches_lit_inv in H as (w1 & -> & H).
  apply matches_star_inv in H as (u & w2 & -> & Hu & H).
  apply matches_lit_inv in H as (w3 & -> & H).
  apply matches_star_inv in H as (v & w4 & -> & Hv & H).
  apply matches_nil_inv in H as ->.
  exists u, v. unfold group_head. rewrite app_nil_r, <- !app_assoc.
  by repeat split.
Qed.

Lemma group_matches name key u v :
  brace_free u -> paren_free v ->
  matches (group_pattern name key) (group_head name key u ++ v).
Proof.
  intros Hu Hv. unfold group_pattern, group_head.
  set (l1 := txt "/* " ++ txt name ++ txt " */ = {").
  set (l2 := txt key ++ txt " = (").
  rewrite <- !app_assoc.
  assert (Hlit : forall l p m, matches p m -> matches (Re.lit l ++ p) (l ++ m)).
  { induction l as [|c l IH]; intros p m Hm; simpl; [done|].
    constructor. by apply IH. }
  apply Hlit. apply matches_star; [done|]. apply Hlit.
  rewrite <- (app_nil_r v). apply matches_star; [done | constructor].
Qed.

(** A guarded step that finds its group inserts right after the match, in
    front of the character that stopped the final star. *)
Lemma insert_after_match_found name key x c :
  found (group_pattern name key) c = true ->
  exists a u v b,
    c = a ++ (group_head name key u ++ v) ++ b /\
    brace_free u /\ paren_free v /\ stops_at (txt ")") b /\
    insert_after_match (group_pattern name key) x c
      = a ++ (group_head name key u ++ v) ++ x ++ b.
Proof.
  unfold found, insert_after_match.
  destruct (Re.search (group_pattern name key) c) as [mt|] eqn:E; [|done].
  intros _. unfold group_pattern in E. rewrite !app_assoc in E.
  apply search_ends in E as (a & m & b & -> & Hm & Hb & ->).
  rewrite <- !app_assoc in Hm. apply matches_group in Hm as (u & v & -> & Hu & Hv).
  exists a, u, v, b. repeat split; try done.
  rewrite (app_assoc a _ b), splice_at. by rewrite <- app_assoc.
Qed.

Lemma insert_after_match_not_found re x c :
  found re c = false -> insert_after_match re x c = c.
Proof.
  unfold found, insert_after_match. by destruct (Re.search re c).
Qed.

Lemma insert_after_match_length re x c :
  length (insert_after_match re x c)
  = (length c + if found re c then length x else 0)%nat.
Proof.
  unfold found, insert_after_match. destruct (Re.search re c).
  - apply splice_length.
  - lia.
Qed.

Lemma insert_after_match_inserted re x c n s :
  inserted n s c -> inserted (S n) s (insert_after_match re x c).
Proof.
  intros H. unfold insert_after_match. destruct (Re.search re c).
  - by apply inserted_splice.
  - by apply inserted_more.
Qed.

(** A text without [)] that occurs before a guarded step occurs after it. *)
Lemma insert_after_match_keeps name key x c k :
  ")"%char ∉ k -> occurs k c ->
  occurs k (insert_after_match (group_pattern name key) x c).
Proof.
  intros Hk Hocc.
  destruct (found (group_pattern name key) c) eqn:E.
  - destruct (insert_after_match_found name key x c E)
      as (a & u & v & b & Hc & _ & _ & Hb & ->).
    rewrite (app_assoc a _ (x ++ b)).
    apply (occurs_insert_stop k _ b x (txt ")")); try done.
    + by apply notin_not_excluded.
    + by rewrite <- app_assoc, <- Hc.
  - by rewrite insert_after_match_not_found.
Qed.

Lemma insert_after_match_occurs name key x c :
  found (group_pattern name key) c = true ->
  occurs x (insert_after_match (group_pattern name key) x c).
Proof.
  intros E. destruct (insert_after_match_found name key x c E)
    as (a & u & v & b & _ & _ & _ & _ & ->).
  rewrite (app_assoc a _ (x ++ b)). apply occurs_middle.
Qed.

(** The two table steps. *)
Lemma splice_found c m x :
  occurs m c ->
  exists a b, first_at m c a /\ c = a ++ m ++ b /\
              Py.find c m = Z.of_nat (length a) /\
              splice c (Py.find c m) x = a ++ x ++ m ++ b.
Proof.
  intros H. destruct (find_present c m H) as (a & Hfirst & ->).
  destruct Hfirst as [[b Hb] Hmin]. exists a, b.
  repeat split; try done; [by exists b|].
  rewrite Hb at 1. apply splice_at.
Qed.

Lemma splice_absent c m x :
  ~ occurs m c ->
  Py.find c m = -1 /\
  exists body tail, c = body ++ tail /\ length tail = Nat.min 1 (length c) /\
                    splice c (Py.find c m) x = body ++ x ++ tail.
Proof.
  intros H. rewrite (find_absent c m H). split; [done|].
  apply splice_minus_one.
Qed.

End Stages.

(** * The fatal path and the guard *)

(** C6. When the manifest does not exist at the fixed path, the run prints
    an error that mentions [project.pbxproj], exits with status 1, writes
    nothing and leaves every file as it was. *)
Theorem missing_manifest_is_fatal w :
  files w !! pbx_path = None ->
  fst (run w) = 1 /\
  console (snd (run w)) = console w ++ ["Error: project.pbxproj not found"%string] /\
  occurs (txt "project.pbxproj") (txt "Error: project.pbxproj not found") /\
  writes (snd (run w)) = writes w /\
  files (snd (run w)) = files w.
Proof.
  intros H. rewrite (run_missing w H). repeat split.
  by exists (txt "Error: "), (txt " not found").
Qed.

Lemma missing_manifest_is_fatal_witness :
  files Sample.empty_world !! pbx_path = None /\
  fst (run Sample.empty_world) = 1 /\
  console (snd (run Sample.empty_world))
    = ["Error: project.pbxproj not found"%string] /\
  occurs (txt "project.pbxproj") (txt "Error: project.pbxproj not found") /\
  writes (snd (run Sample.empty_world)) = 0%nat /\
  files (snd (run Sample.empty_world)) = ∅.
Proof.
  split; [reflexivity|].
  apply (missing_manifest_is_fatal Sample.empty_world). reflexivity.
Defined.

(** C2. When the literal [PermissionService.swift] occurs anywhere in the
    manifest, the run changes nothing and writes nothing, prints the
    already-added notice and exits with status 0. *)
Theorem guard_marker_short_circuits w content :
  files w !! pbx_path = Some content ->
  occurs (txt "PermissionService.swift") content ->
  fst (run w) = 0 /\
  console (snd (run w)) = console w ++ ["Files already added"%string] /\
  writes (snd (run w)) = writes w /\
  files (snd (run w)) = files w.
Proof.
  intros H G. apply contains_spec in G. by rewrite (run_guarded w content H G).
Qed.

Lemma guard_marker_short_circuits_witness :
  let w := Sample.world_with Sample.patched_manifest in
  files w !! pbx_path = Some Sample.patched_manifest /\
  occurs (txt "PermissionService.swift") Sample.patched_manifest /\
  fst (run w) = 0 /\
  console (snd (run w)) = ["Files already added"%string] /\
  writes (snd (run w)) = 0%nat /\
  files (snd (run w)) = files w.
Proof.
  intros w.
  assert (Hf : files w !! pbx_path = Some Sample.patched_manifest)
    by (vm_compute; reflexivity).
  assert (Hg : occurs (txt "PermissionService.swift") Sample.patched_manifest)
    by (exists (txt "path = "), (txt ";"); reflexivity).
  split; [exact Hf|]. split; [exact Hg|].
  exact (guard_marker_short_circuits w Sample.patched_manifest Hf Hg).
Defined.

(** C8. Every identifier [gen_uuid] produces has exactly 24 characters, all
    of them among [0-9A-F]; so have the four identifiers of a run. *)
Theorem gen_uuid_is_24_upper_hex w :
  (exists id w', gen_uuid w = (Done id, w') /\
                 length id = 24%nat /\
                 Forall (fun c => In c (txt "0123456789ABCDEF")) id) /\
  well_formed (ids_of w).
Proof.
  split; [|apply ids_of_well_formed].
  eexists _, _. split; [apply gen_uuid_run|]. split; [apply uuid_text_length|].
  eapply Forall_impl; [apply uuid_text_upper_hex|].
  intros c. apply upper_hex_cases.
Qed.

(** * Idempotence *)

Section Idempotence.

Lemma build_files_name_the_file i :
  occurs guard_marker (build_files_of i).
Proof.
  unfold build_files_of, new_build_files, build_file_entry.
  exists ([TAB; TAB] ++ perm_svc_build_file i ++ txt " /* ").
  eexists. rewrite <- !app_assoc. reflexivity.
Qed.

Lemma guard_marker_no_paren : ")"%char ∉ guard_marker.
Proof. apply avoidsb_notin. reflexivity. Qed.

(** Whatever the manifest held, the patched text names the first file. *)
Lemma patched_has_guard_marker i c : occurs guard_marker (patched i c).
Proof.
  unfold patched, after_filescan, after_services.
  do 3 (apply insert_after_match_keeps; [apply guard_marker_no_paren|]).
  unfold after_build_files.
  destruct (splice_inserts (after_file_refs i c)
              (Py.find (after_file_refs i c) build_file_end_marker)
              (build_files_of i)) as (pre & post & _ & ->).
  apply occurs_in_insertion, build_files_name_the_file.
Qed.

End Idempotence.

(** C3. After a first run on an existing manifest, a second run writes
    nothing, leaves the manifest as the first run left it and exits with
    status 0: the manifest then contains the guard marker. *)
Theorem second_run_is_noop w content :
  files w !! pbx_path = Some content ->
  let w1 := snd (run w) in
  (exists out, files w1 !! pbx_path = Some out /\ occurs guard_marker out) /\
  fst (run w1) = 0 /\
  writes (snd (run w1)) = writes w1 /\
  files (snd (run w1)) = files w1 /\
  console (snd (run w1)) = console w1 ++ ["Files already added"%string].
Proof.
  intros H w1.
  assert (Hout : exists out, files w1 !! pbx_path = Some out /\
                             occurs guard_marker out).
  { subst w1. destruct (Py.contains guard_marker content) eqn:G.
    - rewrite (run_guarded w content H G). simpl.
      exists content. split; [done|]. by apply contains_spec.
    - rewrite (run_patches w content H G). simpl.
      exists (patched (ids_of w) content).
      split; [apply lookup_insert_eq | apply patched_has_guard_marker]. }
  split; [exact Hout|]. destruct Hout as (out & Hf & Hg).
  apply contains_spec in Hg. by rewrite (run_guarded w1 out Hf Hg).
Qed.

Lemma second_run_is_noop_witness :
  let w := Sample.world_with Sample.manifest in
  let w1 := snd (run w) in
  files w !! pbx_path = Some Sample.manifest /\
  (exists out, files w1 !! pbx_path = Some out /\ occurs guard_marker out) /\
  fst (run w1) = 0 /\
  writes (snd (run w1)) = writes w1 /\
  files (snd (run w1)) = files w1 /\
  console (snd (run w1)) = console w1 ++ ["Files already added"%string].
Proof.
  intros w w1.
  assert (Hf : files w !! pbx_path = Some Sample.manifest)
    by (vm_compute; reflexivity).
  split; [exact Hf|].
  exact (second_run_is_noop w Sample.manifest Hf).
Defined.

(** * Only insertions *)

Section OnlyInsertions.

Lemma patched_inserted i c : inserted 5 c (patched i c).
Proof.
  unfold patched, after_filescan, after_services, after_build_files,
    after_file_refs.
  do 3 apply insert_after_match_inserted.
  do 2 apply inserted_splice. apply inserted_none.
Qed.

Lemma patched_length i c :
  length (patched i c) =
  (length c + length (file_refs_of i) + length (build_files_of i)
   + (if services_found i c then length (services_child i) else 0)
   + (if filescan_found i c then length (filescan_child i) else 0)
   + (if sources_found i c then length (sources_of i) else 0))%nat.
Proof.
  unfold patched, sources_found. rewrite insert_after_match_length.
  unfold after_filescan, filescan_found. rewrite insert_after_match_length.
  unfold after_services, services_found. rewrite insert_after_match_length.
  unfold after_build_files. rewrite splice_length.
  unfold after_file_refs. rewrite splice_length. reflexivity.
Qed.

End OnlyInsertions.

(** C10. A run that reaches the write step only inserts text: the written
    content is the content read, cut at no more than five points with text
    put in at the cuts, so it contains the content read as a subsequence,
    and it is longer by exactly the lengths of the fragments the run
    inserted. *)
Theorem run_only_inserts w content :
  files w !! pbx_path = Some content ->
  ~ occurs guard_marker content ->
  let i := ids_of w in
  exists out,
    files (snd (run w)) !! pbx_path = Some out /\
    writes (snd (run w)) = S (writes w) /\
    inserted 5 content out /\
    content `sublist_of` out /\
    length out =
      (length content + length (file_refs_of i) + length (build_files_of i)
       + (if services_found i content then length (services_child i) else 0)
       + (if filescan_found i content then length (filescan_child i) else 0)
       + (if sources_found i content then length (sources_of i) else 0))%nat.
Proof.
  intros H G i. apply contains_false in G.
  rewrite (run_patches w content H G). simpl.
  exists (patched i content). split; [apply lookup_insert_eq|].
  split; [done|]. split; [apply patched_inserted|].
  split; [eapply inserted_sublist, patched_inserted | apply patched_length].
Qed.

Lemma run_only_inserts_witness :
  let w := Sample.world_with Sample.manifest in
  let i := ids_of w in
  files w !! pbx_path = Some Sample.manifest /\
  ~ occurs guard_marker Sample.manifest /\
  exists out,
    files (snd (run w)) !! pbx_path = Some out /\
    writes (snd (run w)) = S (writes w) /\
    inserted 5 Sample.manifest out /\
    Sample.manifest `sublist_of` out /\
    length out =
      (length Sample.manifest + length (file_refs_of i) + length (build_files_of i)
       + (if services_found i Sample.manifest then length (services_child i) else 0)
       + (if filescan_found i Sample.manifest then length (filescan_child i) else 0)
       + (if sources_found i Sample.manifest then length (sources_of i) else 0))%nat.
Proof.
  intros w i.
  assert (Hf : files w !! pbx_path = Some Sample.manifest)
    by (vm_compute; reflexivity).
  assert (Hg : ~ occurs guard_marker Sample.manifest)
    by (apply contains_false; vm_compute; reflexivity).
  split; [exact Hf|]. split; [exact Hg|].
  exact (run_only_inserts w Sample.manifest Hf Hg).
Defined.

(** * A missing end-of-section marker *)

Section MissingMarker.

Variable i : ids.
Hypothesis Hwf : well_formed i.

Lemma file_refs_head : exists x, file_refs_of i = TAB :: x.
Proof. eexists. reflexivity. Qed.

(** Inserting the file references creates no build-file end marker. *)
Lemma build_marker_stays_absent c :
  ~ occurs build_file_end_marker c ->
  ~ occurs build_file_end_marker (after_file_refs i c).
Proof using Hwf.
  intros Hno Hocc. apply Hno. unfold after_file_refs in Hocc.
  destruct (splice_inserts c (Py.find c file_ref_end_marker) (file_refs_of i))
    as (pre & post & -> & E).
  rewrite E in Hocc. destruct file_refs_head as [x Hx].
  pose proof (file_refs_safe i Hwf) as Hs. rewrite Hx in Hocc, Hs.
  revert Hocc.
  change build_file_end_marker with ("/"%char :: txt "* End PBXBuildFile section */") in *.
  apply occurs_insert_inv; [exact Hs|].
  apply avoidsb_notin. reflexivity.
Qed.

Lemma after_file_refs_length c :
  length (after_file_refs i c) = (length c + length (file_refs_of i))%nat.
Proof. apply splice_length. Qed.

End MissingMarker.

(** * Where a group's new child goes *)

Section ListEnd.

(** The text taken by a greedy star is fixed by where it has to stop. *)
Lemma star_stop_unique excl v b v' c r :
  Forall (fun x => Re.excluded excl x = false) v -> stops_at excl b ->
  Forall (fun x => Re.excluded excl x = false) v' -> Re.excluded excl c = true ->
  v ++ b = v' ++ c :: r -> v = v' /\ b = c :: r.
Proof.
  intros Hv Hb. revert v'. induction Hv as [|x v Hx Hv IH]; intros v' Hv' Hc E.
  - simpl in E. destruct Hb as [->|(c0 & r0 & -> & Hc0)].
    + by destruct v'.
    + destruct v' as [|y v']; [done|].
      simpl in E. injection E as -> _.
      apply Forall_cons in Hv' as [Hy _]. congruence.
  - destruct v' as [|y v']; simpl in E.
    + injection E as -> _. congruence.
    + injection E as -> E. apply Forall_cons in Hv' as [_ Hv'].
      destruct (IH v' Hv' Hc E) as [-> ->]. done.
Qed.

Lemma insert_after_match_list_end name key x c :
  found (group_pattern name key) c = true ->
  exists a u v b,
    c = a ++ (group_head name key u ++ v) ++ b /\
    brace_free u /\ paren_free v /\ stops_at (txt ")") b /\
    insert_after_match (group_pattern name key) x c
      = a ++ (group_head name key u ++ v) ++ x ++ b /\
    forall kids rest,
      v ++ b = kids ++ ")"%char :: rest -> paren_free kids ->
      v = kids /\ b = ")"%char :: rest.
Proof.
  intros Hfound.
  destruct (insert_after_match_found name key x c Hfound)
    as (a & u & v & b & Hc & Hu & Hv & Hb & Hins).
  exists a, u, v, b. repeat (split; [assumption|]).
  intros kids rest E Hkids.
  by apply (star_stop_unique (txt ")") v b kids ")"%char rest).
Qed.

End ListEnd.

(** C4, as the code has it. A run past the guard writes what the Sources
    step makes of the buffer left by the two group steps.  In each group
    step, when the group's pattern matches, the new child line (written
    out below) is inserted at the end of the matched span: the buffer is
    cut right after the text [v] that follows [children = (] and has no
    closing parenthesis, in front of the first closing parenthesis (or at
    the end of the text), and the new line is put there.  So when the
    text [kids] between [children = (] and the parenthesis that closes
    the list has no closing parenthesis of its own, [v] is [kids]: the
    new line comes after everything the list holds and right in front of
    the parenthesis that closes it.  When a listed child has a closing
    parenthesis in its text, the new line lands in front of that
    parenthesis instead, inside that child's line. *)
Theorem group_child_goes_last w content :
  files w !! pbx_path = Some content ->
  ~ occurs (txt "PermissionService.swift") content ->
  let i := ids_of w in
  let id1 := perm_svc_file_ref i in
  let id3 := perm_denied_file_ref i in
  let services_line := [NL; TAB; TAB; TAB; TAB] ++ id1 ++ txt " /* PermissionService.swift */," in
  let filescan_line := [NL; TAB; TAB; TAB; TAB] ++ id3 ++ txt " /* PermissionDeniedView.swift */," in
  (exists out, files (snd (run w)) !! pbx_path = Some out /\
               inserted 1 (after_filescan i content) out) /\
  (found services_re (after_build_files i content) = true ->
   exists a u v b,
     after_build_files i content
       = a ++ (group_head "Services" "children" u ++ v) ++ b /\
     brace_free u /\ paren_free v /\ stops_at (txt ")") b /\
     after_services i content
       = a ++ (group_head "Services" "children" u ++ v) ++ services_line ++ b /\
     forall kids rest,
       v ++ b = kids ++ ")"%char :: rest -> paren_free kids ->
       v = kids /\ b = ")"%char :: rest) /\
  (found filescan_re (after_services i content) = true ->
   exists a u v b,
     after_services i content
       = a ++ (group_head "FileScan" "children" u ++ v) ++ b /\
     brace_free u /\ paren_free v /\ stops_at (txt ")") b /\
     after_filescan i content
       = a ++ (group_head "FileScan" "children" u ++ v) ++ filescan_line ++ b /\
     forall kids rest,
       v ++ b = kids ++ ")"%char :: rest -> paren_free kids ->
       v = kids /\ b = ")"%char :: rest).
Proof.
  intros H G i id1 id3 services_line filescan_line.
  change (txt "PermissionService.swift") with guard_marker in G.
  apply contains_false in G.
  rewrite (run_patches w content H G). cbn [fst snd files].
  split; [|split; intros Hfound].
  - exists (patched (ids_of w) content). split; [apply lookup_insert_eq|].
    unfold patched. apply insert_after_match_inserted, inserted_none.
  - exact (insert_after_match_list_end "Services" "children" (services_child i) _
             Hfound).
  - exact (insert_after_match_list_end "FileScan" "children" (filescan_child i) _
             Hfound).
Qed.

Lemma group_child_goes_last_witness :
  let c := Sample.manifest_with_children in
  let w := Sample.world_with c in
  let i := ids_of w in
  let id1 := perm_svc_file_ref i in
  let id3 := perm_denied_file_ref i in
  let services_line := [NL; TAB; TAB; TAB; TAB] ++ id1 ++ txt " /* PermissionService.swift */," in
  let filescan_line := [NL; TAB; TAB; TAB; TAB] ++ id3 ++ txt " /* PermissionDeniedView.swift */," in
  files w !! pbx_path = Some c /\
  ~ occurs (txt "PermissionService.swift") c /\
  found services_re (after_build_files i c) = true /\
  found filescan_re (after_services i c) = true /\
  (
   exists a u v b,
     after_build_files i c
       = a ++ (group_head "Services" "children" u ++ v) ++ b /\
     brace_free u /\ paren_free v /\ stops_at (txt ")") b /\
     after_services i c
       = a ++ (group_head "Services" "children" u ++ v) ++ services_line ++ b /\
     forall kids rest,
       v ++ b = kids ++ ")"%char :: rest -> paren_free kids ->
       v = kids /\ b = ")"%char :: rest) /\
  (
   exists a u v b,
     after_services i c
       = a ++ (group_head "FileScan" "children" u ++ v) ++ b /\
     brace_free u /\ paren_free v /\ stops_at (txt ")") b /\
     after_filescan i c
       = a ++ (group_head "FileScan" "children" u ++ v) ++ filescan_line ++ b /\
     forall kids rest,
       v ++ b = kids ++ ")"%char :: rest -> paren_free kids ->
       v = kids /\ b = ")"%char :: rest).
Proof.
  intros c w i id1 id3 services_line filescan_line.
  assert (Hf : files w !! pbx_path = Some c) by (vm_compute; reflexivity).
  assert (Hg : ~ occurs (txt "PermissionService.swift") c)
    by (apply contains_false; vm_compute; reflexivity).
  assert (H1 : found services_re (after_build_files i c) = true)
    by (vm_compute; reflexivity).
  assert (H2 : found filescan_re (after_services i c) = true)
    by (vm_compute; reflexivity).
  destruct (group_child_goes_last w c Hf Hg) as (_ & Hs & Hfs).
  repeat (split; [assumption|]).
  split; [exact (Hs H1) | exact (Hfs H2)].
Defined.

(** C4, as the specification words it, fails: in a group that already
    lists a child, the new line does not come at the start of the list,
    nor at the start of the matched span, but after the child listed.
    And it does not always come after the children listed: in a group
    whose first child has a parenthesis in its name, the new line lands
    inside that child's line, and the second child comes after it. *)
Lemma group_child_at_start_counterexample :
  (let w := Sample.world_with Sample.manifest_with_children in
   let i := ids_of w in
   let id1 := perm_svc_file_ref i in
   let id3 := perm_denied_file_ref i in
   let services_line := [NL; TAB; TAB; TAB; TAB] ++ id1 ++ txt " /* PermissionService.swift */," in
   let filescan_line := [NL; TAB; TAB; TAB; TAB] ++ id3 ++ txt " /* PermissionDeniedView.swift */," in
   let old_child := [NL; TAB; TAB; TAB; TAB] ++ txt "B1 /* Scanner.swift */," in
   exists out,
     files (snd (run w)) !! pbx_path = Some out /\
     occurs (txt "/* Services */ = {" ++ [NL; TAB; TAB; TAB] ++ txt "children = ("
               ++ old_child ++ [NL; TAB; TAB; TAB]
               ++ services_line ++ txt ");") out /\
     occurs (txt "/* FileScan */ = {" ++ [NL; TAB; TAB; TAB] ++ txt "children = ("
               ++ old_child ++ [NL; TAB; TAB; TAB]
               ++ filescan_line ++ txt ");") out /\
     ~ occurs (txt "children = (" ++ services_line) out /\
     ~ occurs (services_line ++ txt "/* Services */ = {") out /\
     ~ occurs (txt "children = (" ++ filescan_line) out /\
     ~ occurs (filescan_line ++ txt "/* FileScan */ = {") out) /\
  (let w := Sample.world_with services_with_paren_child in
   let i := ids_of w in
   let id1 := perm_svc_file_ref i in
   let id3 := perm_denied_file_ref i in
   let services_line := [NL; TAB; TAB; TAB; TAB] ++ id1 ++ txt " /* PermissionService.swift */," in
   let filescan_line := [NL; TAB; TAB; TAB; TAB] ++ id3 ++ txt " /* PermissionDeniedView.swift */," in
   exists out,
     files (snd (run w)) !! pbx_path = Some out /\
     occurs (txt "A1 /* Services */ = {children = ("
               ++ [NL; TAB; TAB; TAB; TAB] ++ txt "B1 /* Scanner (old"
               ++ services_line ++ txt ").swift */,"
               ++ [NL; TAB; TAB; TAB; TAB] ++ txt "B2 /* Other.swift */,"
               ++ [NL] ++ txt "); };") out).
Proof.
  split.
  - intros w i id1 id3 services_line filescan_line old_child.
    exists (patched i Sample.manifest_with_children).
    split; [vm_compute; reflexivity|].
    repeat split;
      first [ apply contains_spec; vm_compute; reflexivity
            | apply contains_false; vm_compute; reflexivity ].
  - intros w i id1 id3 services_line filescan_line.
    exists (patched i services_with_paren_child).
    split; [vm_compute; reflexivity|].
    apply contains_spec; vm_compute; reflexivity.
Qed.

(** * All five anchors *)

Section AllAnchors.

Variable i : ids.
Hypothesis Hwf : well_formed i.
Variable content : text.

Lemma file_refs_survive :
  occurs build_file_end_marker (after_file_refs i content) ->
  occurs (file_refs_of i) (after_file_refs i content) ->
  occurs (file_refs_of i) (after_build_files i content).
Proof using Hwf.
  intros Hm Hocc. unfold after_build_files.
  destruct (splice_found _ _ (build_files_of i) Hm) as (a & b & _ & Hc & _ & ->).
  apply (occurs_insert_marker build_file_end_marker);
    [by apply file_refs_safe | by rewrite <- Hc].
Qed.

(** What occurs after the two table steps and has no [)] occurs in the
    patched text. *)
Lemma patched_keeps k :
  ")"%char ∉ k -> occurs k (after_build_files i content) ->
  occurs k (patched i content).
Proof.
  intros Hk H. unfold patched, after_filescan, after_services.
  by do 3 (apply insert_after_match_keeps; [exact Hk|]).
Qed.

Lemma patched_keeps_services k :
  ")"%char ∉ k -> occurs k (after_services i content) ->
  occurs k (patched i content).
Proof.
  intros Hk H. unfold patched, after_filescan.
  by do 2 (apply insert_after_match_keeps; [exact Hk|]).
Qed.

Lemma patched_keeps_filescan k :
  ")"%char ∉ k -> occurs k (after_filescan i content) ->
  occurs k (patched i content).
Proof.
  intros Hk H. unfold patched.
  by apply insert_after_match_keeps.
Qed.

Lemma build_files_inserted :
  occurs (build_files_of i) (after_build_files i content).
Proof.
  unfold after_build_files.
  destruct (splice_inserts (after_file_refs i content)
              (Py.find (after_file_refs i content) build_file_end_marker)
              (build_files_of i)) as (pre & post & _ & ->).
  apply occurs_middle.
Qed.

Lemma file_refs_inserted :
  occurs (file_refs_of i) (after_file_refs i content).
Proof.
  unfold after_file_refs.
  destruct (splice_inserts content (Py.find content file_ref_end_marker)
              (file_refs_of i)) as (pre & post & _ & ->).
  apply occurs_middle.
Qed.

End AllAnchors.

(** C1, as the code has it. The anchors are searched one after the other,
    each in the buffer as the earlier steps left it.  When the guard
    marker is absent and each of the five searches finds its anchor, the
    run writes a text in which: the two file-reference entries (written
    out below, as are all the fragments) were put right before the first
    file-reference end marker and the two build-file entries right before
    the first build-file end marker; one child line was put at the end of
    the match of each group and the two source lines at the end of the
    match of the Sources phase; all five fragments are there whole; and
    nothing else differs from the content read (five cuts, and 962
    characters more). *)
Theorem all_anchors_patch w content :
  files w !! pbx_path = Some content ->
  ~ occurs (txt "PermissionService.swift") content ->
  let i := ids_of w in
  let id1 := perm_svc_file_ref i in
  let id2 := perm_svc_build_file i in
  let id3 := perm_denied_file_ref i in
  let id4 := perm_denied_build_file i in
  let end_refs := txt "/* End PBXFileReference section */" in
  let end_builds := txt "/* End PBXBuildFile section */" in
  let svc_ref_entry :=
    [TAB; TAB] ++ id1
      ++ txt " /* PermissionService.swift */ = {isa = PBXFileReference; lastKnownFileType = sourcecode.swift; path = PermissionService.swift; sourceTree = "
      ++ [DQ] ++ txt "<group>" ++ [DQ] ++ txt "; };" in
  let denied_ref_entry :=
    [TAB; TAB] ++ id3
      ++ txt " /* PermissionDeniedView.swift */ = {isa = PBXFileReference; lastKnownFileType = sourcecode.swift; path = PermissionDeniedView.swift; sourceTree = "
      ++ [DQ] ++ txt "<group>" ++ [DQ] ++ txt "; };" in
  let file_refs := svc_ref_entry ++ [NL] ++ denied_ref_entry ++ [NL] in
  let svc_build_entry :=
    [TAB; TAB] ++ id2
      ++ txt " /* PermissionService.swift in Sources */ = {isa = PBXBuildFile; fileRef = "
      ++ id1 ++ txt " /* PermissionService.swift */; };" in
  let denied_build_entry :=
    [TAB; TAB] ++ id4
      ++ txt " /* PermissionDeniedView.swift in Sources */ = {isa = PBXBuildFile; fileRef = "
      ++ id3 ++ txt " /* PermissionDeniedView.swift */; };" in
  let build_files := svc_build_entry ++ [NL] ++ denied_build_entry ++ [NL] in
  let services_line := [NL; TAB; TAB; TAB; TAB] ++ id1 ++ txt " /* PermissionService.swift */," in
  let filescan_line := [NL; TAB; TAB; TAB; TAB] ++ id3 ++ txt " /* PermissionDeniedView.swift */," in
  let source_lines :=
    [NL; TAB; TAB; TAB; TAB] ++ id2 ++ txt " /* PermissionService.swift in Sources */,"
      ++ [NL; TAB; TAB; TAB; TAB] ++ id4
      ++ txt " /* PermissionDeniedView.swift in Sources */," in
  let c1 := after_file_refs i content in
  let c2 := after_build_files i content in
  let c3 := after_services i content in
  let c4 := after_filescan i content in
  occurs end_refs content ->
  occurs end_builds c1 ->
  found services_re c2 = true ->
  found filescan_re c3 = true ->
  found sources_re c4 = true ->
  exists out,
    (fst (run w) = 0 /\
     files (snd (run w)) !! pbx_path = Some out /\
     writes (snd (run w)) = S (writes w) /\
     console (snd (run w)) = console w ++
       [ "Added PermissionService.swift to Services group";
         "Added PermissionDeniedView.swift to FileScan group";
         "Added both files to Sources build phase";
         "Project updated successfully" ]%string) /\
    (exists a b, first_at end_refs content a /\
       content = a ++ end_refs ++ b /\
       c1 = a ++ file_refs ++ end_refs ++ b) /\
    (exists a b, first_at end_builds c1 a /\
       c1 = a ++ end_builds ++ b /\
       c2 = a ++ build_files ++ end_builds ++ b) /\
    (exists a u v b,
       c2 = a ++ (group_head "Services" "children" u ++ v) ++ b /\
       brace_free u /\ paren_free v /\ stops_at (txt ")") b /\
       c3 = a ++ (group_head "Services" "children" u ++ v) ++ services_line ++ b) /\
    (exists a u v b,
       c3 = a ++ (group_head "FileScan" "children" u ++ v) ++ b /\
       brace_free u /\ paren_free v /\ stops_at (txt ")") b /\
       c4 = a ++ (group_head "FileScan" "children" u ++ v) ++ filescan_line ++ b) /\
    (exists a u v b,
       c4 = a ++ (group_head "Sources" "files" u ++ v) ++ b /\
       brace_free u /\ paren_free v /\ stops_at (txt ")") b /\
       out = a ++ (group_head "Sources" "files" u ++ v) ++ source_lines ++ b) /\
    (occurs file_refs out /\ occurs build_files out /\
     occurs services_line out /\ occurs filescan_line out /\
     occurs source_lines out) /\
    inserted 5 content out /\
    length out = (length content + 368 + 326 + 60 + 63 + 145)%nat.
Proof.
  intros H G i id1 id2 id3 id4 end_refs end_builds
    svc_ref_entry denied_ref_entry file_refs
    svc_build_entry denied_build_entry build_files
    services_line filescan_line source_lines c1 c2 c3 c4 Hm1 Hm2 Hs Hf Hp.
  assert (EF : file_refs = file_refs_of i) by reflexivity.
  assert (EB : build_files = build_files_of i) by reflexivity.
  assert (E1 : services_line = services_child i) by reflexivity.
  assert (E2 : filescan_line = filescan_child i) by reflexivity.
  assert (E3 : source_lines = sources_of i) by reflexivity.
  clearbody file_refs build_files services_line filescan_line source_lines.
  subst file_refs build_files services_line filescan_line source_lines.
  clear svc_ref_entry denied_ref_entry svc_build_entry denied_build_entry.
  change end_refs with file_ref_end_marker in *.
  change end_builds with build_file_end_marker in *.
  clear end_refs end_builds.
  change (txt "PermissionService.swift") with guard_marker in G.
  pose proof (ids_of_well_formed w) as Hwf. fold i in Hwf.
  apply contains_false in G.
  exists (patched i content). rewrite (run_patches w content H G).
  fold i. cbn [fst snd files console writes].
  split; [|split; [|split; [|split; [|split; [|split; [|split]]]]]].
  - split; [done|]. split; [apply lookup_insert_eq|]. split; [done|].
    unfold messages, services_found, filescan_found, sources_found.
    fold c2 c3 c4. by rewrite Hs, Hf, Hp.
  - destruct (splice_found content file_ref_end_marker (file_refs_of i) Hm1)
      as (a & b & Hfirst & Hc & _ & Hsp). by exists a, b.
  - destruct (splice_found c1 build_file_end_marker (build_files_of i) Hm2)
      as (a & b & Hfirst & Hc & _ & Hsp). by exists a, b.
  - exact (insert_after_match_found "Services" "children" (services_child i) c2 Hs).
  - exact (insert_after_match_found "FileScan" "children" (filescan_child i) c3 Hf).
  - exact (insert_after_match_found "Sources" "files" (sources_of i) c4 Hp).
  - repeat split.
    + apply patched_keeps; [by apply file_refs_no_paren|].
      apply file_refs_survive; [done | done | apply file_refs_inserted].
    + apply patched_keeps; [by apply build_files_no_paren|].
      apply build_files_inserted.
    + apply patched_keeps_services; [by apply services_child_no_paren|].
      by apply (insert_after_match_occurs "Services" "children").
    + apply patched_keeps_filescan; [by apply filescan_child_no_paren|].
      by apply (insert_after_match_occurs "FileScan" "children").
    + by apply (insert_after_match_occurs "Sources" "files").
  - split; [apply patched_inserted|].
    rewrite patched_length. unfold services_found, filescan_found, sources_found.
    fold c2 c3 c4. rewrite Hs, Hf, Hp. unfold i.
    destruct (fragment_lengths w) as (-> & -> & -> & -> & ->). reflexivity.
Qed.

Lemma all_anchors_patch_witness :
  let w := Sample.world_with Sample.manifest in
  let i := ids_of w in
  let id1 := perm_svc_file_ref i in
  let id2 := perm_svc_build_file i in
  let id3 := perm_denied_file_ref i in
  let id4 := perm_denied_build_file i in
  let end_refs := txt "/* End PBXFileReference section */" in
  let end_builds := txt "/* End PBXBuildFile section */" in
  let svc_ref_entry :=
    [TAB; TAB] ++ id1
      ++ txt " /* PermissionService.swift */ = {isa = PBXFileReference; lastKnownFileType = sourcecode.swift; path = PermissionService.swift; sourceTree = "
      ++ [DQ] ++ txt "<group>" ++ [DQ] ++ txt "; };" in
  let denied_ref_entry :=
    [TAB; TAB] ++ id3
      ++ txt " /* PermissionDeniedView.swift */ = {isa = PBXFileReference; lastKnownFileType = sourcecode.swift; path = PermissionDeniedView.swift; sourceTree = "
      ++ [DQ] ++ txt "<group>" ++ [DQ] ++ txt "; };" in
  let file_refs := svc_ref_entry ++ [NL] ++ denied_ref_entry ++ [NL] in
  let svc_build_entry :=
    [TAB; TAB] ++ id2
      ++ txt " /* PermissionService.swift in Sources */ = {isa = PBXBuildFile; fileRef = "
      ++ id1 ++ txt " /* PermissionService.swift */; };" in
  let denied_build_entry :=
    [TAB; TAB] ++ id4
      ++ txt " /* PermissionDeniedView.swift in Sources */ = {isa = PBXBuildFile; fileRef = "
      ++ id3 ++ txt " /* PermissionDeniedView.swift */; };" in
  let build_files := svc_build_entry ++ [NL] ++ denied_build_entry ++ [NL] in
  let services_line := [NL; TAB; TAB; TAB; TAB] ++ id1 ++ txt " /* PermissionService.swift */," in
  let filescan_line := [NL; TAB; TAB; TAB; TAB] ++ id3 ++ txt " /* PermissionDeniedView.swift */," in
  let source_lines :=
    [NL; TAB; TAB; TAB; TAB] ++ id2 ++ txt " /* PermissionService.swift in Sources */,"
      ++ [NL; TAB; TAB; TAB; TAB] ++ id4
      ++ txt " /* PermissionDeniedView.swift in Sources */," in
  files w !! pbx_path = Some Sample.manifest /\
  ~ occurs (txt "PermissionService.swift") Sample.manifest /\
  occurs end_refs Sample.manifest /\
  occurs end_builds (after_file_refs i Sample.manifest) /\
  found services_re (after_build_files i Sample.manifest) = true /\
  found filescan_re (after_services i Sample.manifest) = true /\
  found sources_re (after_filescan i Sample.manifest) = true /\
  exists out,
    fst (run w) = 0 /\
    files (snd (run w)) !! pbx_path = Some out /\
    occurs file_refs out /\ occurs build_files out /\
    occurs services_line out /\ occurs filescan_line out /\
    occurs source_lines out /\
    inserted 5 Sample.manifest out /\
    length out = (length Sample.manifest + 368 + 326 + 60 + 63 + 145)%nat.
Proof.
  intros w i id1 id2 id3 id4 end_refs end_builds
    svc_ref_entry denied_ref_entry file_refs
    svc_build_entry denied_build_entry build_files
    services_line filescan_line source_lines.
  assert (Hf : files w !! pbx_path = Some Sample.manifest)
    by (vm_compute; reflexivity).
  assert (Hg : ~ occurs (txt "PermissionService.swift") Sample.manifest)
    by (apply contains_false; vm_compute; reflexivity).
  assert (H1 : occurs end_refs Sample.manifest)
    by (apply contains_spec; vm_compute; reflexivity).
  assert (H2 : occurs end_builds (after_file_refs i Sample.manifest))
    by (apply contains_spec; vm_compute; reflexivity).
  assert (H3 : found services_re (after_build_files i Sample.manifest) = true)
    by (vm_compute; reflexivity).
  assert (H4 : found filescan_re (after_services i Sample.manifest) = true)
    by (vm_compute; reflexivity).
  assert (H5 : found sources_re (after_filescan i Sample.manifest) = true)
    by (vm_compute; reflexivity).
  repeat (split; [assumption|]).
  destruct (all_anchors_patch w Sample.manifest Hf Hg H1 H2 H3 H4 H5)
    as (out & (Hexit & Hout & _) & _ & _ & _ & _ & _ & Hocc & Hins & Hlen).
  exists out. split; [exact Hexit|]. split; [exact Hout|].
  destruct Hocc as (? & ? & ? & ? & ?). by repeat split.
Defined.

(** C1, as the specification words it, fails: this manifest contains all
    five anchors and not the guard marker, yet once the file references
    are in (their braces sit between the Services brace and [children])
    the Services pattern no longer matches, the run warns, and no child
    line is added to the group. *)
Lemma all_anchors_counterexample :
  let c := Sample.services_around_marker in
  let w := Sample.world_with c in
  let i := ids_of w in
  (occurs file_ref_end_marker c /\ occurs build_file_end_marker c /\
   found services_re c = true /\ found filescan_re c = true /\
   found sources_re c = true /\ ~ occurs guard_marker c) /\
  exists out,
    files (snd (run w)) !! pbx_path = Some out /\
    console (snd (run w)) =
      [ "WARNING: Could not find Services group";
        "Added PermissionDeniedView.swift to FileScan group";
        "Added both files to Sources build phase";
        "Project updated successfully" ]%string /\
    ~ occurs (services_child i) out /\
    length out =
      (length c + length (file_refs_of i) + length (build_files_of i)
       + length (filescan_child i) + length (sources_of i))%nat.
Proof.
  intros c w i. split.
  - repeat split;
      first [ apply contains_spec; vm_compute; reflexivity
            | apply contains_false; vm_compute; reflexivity
            | vm_compute; reflexivity ].
  - exists (patched i c). split; [vm_compute; reflexivity|].
    split; [vm_compute; reflexivity|].
    split; [apply contains_false; vm_compute; reflexivity|].
    vm_compute; reflexivity.
Qed.

(** * A missing Services group *)

Section NoNewGroup.

(** A nonempty tail of a text that ends in [q; z1; z2] contains [q] or is
    one of the last two tails. *)
Lemma tail_of_closed_entry (y l l' : text) (q z1 z2 : ascii) :
  y ++ [q; z1; z2] = l ++ l' -> l' <> [] ->
  q ∈ l' \/ l' = [z1; z2] \/ l' = [z2].
Proof.
  intros E Hne. apply app_eq_app in E as [k [[-> E]|[-> E]]].
  - left. rewrite E. apply elem_of_app. right. by left.
  - destruct k as [|k0 [|k1 [|k2 k]]]; simpl in E.
    + left. rewrite <- E. by left.
    + injection E as _ <-. by right; left.
    + injection E as _ _ <-. by right; right.
    + injection E as _ _ _ E. by destruct k, l'.
Qed.

(** The head [h] of a group (no [}], ending in [(], starting with [h0])
    that occurs after the insertion of [x] (no [(], ending in [}] and two
    characters other than [h0]) occurred before it. *)
Lemma head_not_created (h x y pre post a t : text) (h0 p q z1 z2 : ascii) h1 h2 :
  h = h0 :: h1 -> h = h2 ++ [p] -> q ∉ h ->
  x = y ++ [q; z1; z2] -> p ∉ x -> z1 <> h0 -> z2 <> h0 ->
  a ++ h ++ t = pre ++ x ++ post ->
  exists a' t', pre ++ post = a' ++ h ++ t'.
Proof.
  intros Hh0 Hhp Hq Hx Hp Hz1 Hz2 E.
  assert (Hqx : q ∈ x) by (rewrite Hx; apply elem_of_app; right; by left).
  assert (Hph : p ∈ h) by (rewrite Hhp; apply elem_of_app; right; by left).
  apply app_eq_app in E as [l [[Ha E]|[Hpre E]]].
  - (* the head starts at or after the start of [x] *)
    subst a. apply app_eq_app in E as [l' [[Hx' E]|[Hl E]]].
    + destruct l' as [|c l'].
      * simpl in E. exists pre, t. by rewrite E.
      * exfalso. apply app_eq_app in E as [k [[Hh E]|[Hl' E]]].
        -- (* the head runs over the end of [x] *)
           rewrite Hx in Hx'.
           destruct (tail_of_closed_entry y l (c :: l') q z1 z2 Hx' ltac:(done))
             as [Hin | [Hl' | Hl']].
           ++ apply Hq. rewrite Hh. apply elem_of_app. by left.
           ++ rewrite Hh0, Hl' in Hh. injection Hh as Hh _. congruence.
           ++ rewrite Hh0, Hl' in Hh. injection Hh as Hh _. congruence.
        -- (* the head ends inside [x] *)
           apply Hp. rewrite Hx', Hl'.
           apply elem_of_app. right. apply elem_of_app. by left.
    + subst l post. exists (pre ++ l'), t. by rewrite <- !app_assoc.
  - (* the head starts before [x] *)
    subst pre. apply app_eq_app in E as [l' [[Hh E]|[Hl E]]].
    + destruct l' as [|c l'].
      * rewrite app_nil_r in Hh. subst l. exists a, post.
        by rewrite <- !app_assoc.
      * exfalso. apply app_eq_app in E as [k [[Hx' E]|[Hl' E]]].
        -- (* the head ends inside [x]: so does its last character *)
           apply Hp. rewrite Hx'. apply elem_of_app. left.
           rewrite Hhp in Hh.
           destruct l' as [|c' l' _] using rev_ind.
           ++ apply app_inj_tail in Hh as [_ ->]. by left.
           ++ change (l ++ c :: l' ++ [c']) with (l ++ (c :: l') ++ [c']) in Hh.
              rewrite app_assoc in Hh. apply app_inj_tail in Hh as [_ ->].
              rewrite app_comm_cons. apply elem_of_app. right. by left.
        -- (* [x] lies inside the head *)
           apply Hq. rewrite Hh, Hl'. apply elem_of_app. right.
           apply elem_of_app. by left.
    + subst l t. exists a, (l' ++ post). by rewrite <- !app_assoc.
Qed.

Lemma brace_free_no_closing u : brace_free u -> "}"%char ∉ u.
Proof.
  intros Hu Hin. unfold brace_free in Hu. rewrite Forall_forall in Hu.
  by apply Hu in Hin.
Qed.

(** Inserting table entries never makes the Services pattern match. *)
Lemma services_not_created x y pre post :
  x = y ++ ["}"; ";"; NL]%char -> "("%char ∉ x ->
  found services_re (pre ++ post) = false ->
  found services_re (pre ++ x ++ post) = false.
Proof.
  intros Hx Hp Hno.
  destruct (found services_re (pre ++ x ++ post)) eqn:E; [exfalso|done].
  unfold found in Hno, E.
  destruct (Re.search services_re (pre ++ post)) eqn:Hnone; [done|].
  destruct (Re.search services_re (pre ++ x ++ post)) as [mt|] eqn:Es; [|done].
  apply search_from_sound in Es as (a & m & b & Hc & Hm & _).
  apply matches_group in Hm as (u & v & -> & Hu & _).
  rewrite <- app_assoc in Hc. symmetry in Hc.
  set (h := group_head "Services" "children" u) in *.
  assert (Hh0 : exists h1, h = "/"%char :: h1) by (eexists; reflexivity).
  assert (Hhp : exists h2, h = h2 ++ ["("%char]).
  { exists ((txt "/* " ++ txt "Services" ++ txt " */ = {") ++ u
              ++ txt "children" ++ txt " = ").
    unfold h, group_head. rewrite <- !app_assoc. reflexivity. }
  assert (Hq : "}"%char ∉ h).
  { unfold h, group_head. rewrite !not_elem_of_app. repeat split;
      first [ apply avoidsb_notin; reflexivity
            | by apply brace_free_no_closing ]. }
  destruct Hh0 as [h1 Hh0]. destruct Hhp as [h2 Hhp].
  destruct (head_not_created h x y pre post a (v ++ b)
              "/"%char "("%char "}"%char ";"%char NL h1 h2
              Hh0 Hhp Hq Hx Hp ltac:(done) ltac:(done) Hc) as (a' & t' & Hc').
  apply search_None in Hnone. apply Hnone.
  exists a', h, t'. split; [done|].
  rewrite <- (app_nil_r h).
  apply (group_matches "Services" "children" u []); [exact Hu | constructor].
Qed.

End NoNewGroup.

Section ServicesMissing.

Variable i : ids.
Hypothesis Hwf : well_formed i.

Lemma file_refs_closed : exists y, file_refs_of i = y ++ ["}"; ";"; NL]%char.
Proof.
  unfold file_refs_of, new_file_refs, file_ref_entry.
  exists (([TAB; TAB] ++ perm_svc_file_ref i ++ txt " /* " ++ svc_name
    ++ txt " */ = {isa = PBXFileReference; lastKnownFileType = sourcecode.swift; path = "
    ++ svc_name ++ txt "; sourceTree = " ++ [DQ] ++ txt "<group>" ++ [DQ] ++ txt "; };")
    ++ [NL] ++ [TAB; TAB] ++ perm_denied_file_ref i ++ txt " /* " ++ denied_name
    ++ txt " */ = {isa = PBXFileReference; lastKnownFileType = sourcecode.swift; path = "
    ++ denied_name ++ txt "; sourceTree = " ++ [DQ] ++ txt "<group>" ++ [DQ] ++ txt "; ").
  rewrite <- !app_assoc. reflexivity.
Qed.

Lemma build_files_closed : exists y, build_files_of i = y ++ ["}"; ";"; NL]%char.
Proof.
  unfold build_files_of, new_build_files, build_file_entry.
  exists (([TAB; TAB] ++ perm_svc_build_file i ++ txt " /* " ++ svc_name
    ++ txt " in Sources */ = {isa = PBXBuildFile; fileRef = " ++ perm_svc_file_ref i
    ++ txt " /* " ++ svc_name ++ txt " */; };")
    ++ [NL] ++ [TAB; TAB] ++ perm_denied_build_file i ++ txt " /* " ++ denied_name
    ++ txt " in Sources */ = {isa = PBXBuildFile; fileRef = " ++ perm_denied_file_ref i
    ++ txt " /* " ++ denied_name ++ txt " */; ").
  rewrite <- !app_assoc. reflexivity.
Qed.

Lemma file_refs_no_open_paren : "("%char ∉ file_refs_of i.
Proof using Hwf.
  unfold file_refs_of, new_file_refs, file_ref_entry. use_wf Hwf. solve_notin.
Qed.

Lemma build_files_no_open_paren : "("%char ∉ build_files_of i.
Proof using Hwf.
  unfold build_files_of, new_build_files, build_file_entry. use_wf Hwf. solve_notin.
Qed.

(** A Services group that the content read does not have is not there
    when step 3 looks for it. *)
Lemma services_stay_missing c :
  found services_re c = false -> services_found i c = false.
Proof using Hwf.
  intros Hno. unfold services_found, after_build_files.
  destruct (splice_inserts (after_file_refs i c)
              (Py.find (after_file_refs i c) build_file_end_marker)
              (build_files_of i)) as (pre & post & E & ->).
  destruct build_files_closed as [y Hy].
  apply (services_not_created _ y); [done | apply build_files_no_open_paren|].
  rewrite <- E. unfold after_file_refs.
  destruct (splice_inserts c (Py.find c file_ref_end_marker) (file_refs_of i))
    as (pre' & post' & E' & ->).
  destruct file_refs_closed as [y' Hy'].
  apply (services_not_created _ y'); [done | apply file_refs_no_open_paren|].
  by rewrite <- E'.
Qed.

End ServicesMissing.

(** C5, as the code has it. When the content read has no match of the
    Services pattern, the guard marker is absent, and each of the other
    four searches finds its anchor in the buffer as the earlier steps left
    it, the run exits with status 0 and writes the file, prints exactly
    one warning (the one for the Services group), skips that step and
    makes the other four insertions (the fragments are written out
    below), and nothing else differs from the content read (four cuts,
    and 902 characters more). *)
Theorem services_missing_patch w content :
  files w !! pbx_path = Some content ->
  ~ occurs (txt "PermissionService.swift") content ->
  let i := ids_of w in
  let id1 := perm_svc_file_ref i in
  let id2 := perm_svc_build_file i in
  let id3 := perm_denied_file_ref i in
  let id4 := perm_denied_build_file i in
  let end_refs := txt "/* End PBXFileReference section */" in
  let end_builds := txt "/* End PBXBuildFile section */" in
  let svc_ref_entry :=
    [TAB; TAB] ++ id1
      ++ txt " /* PermissionService.swift */ = {isa = PBXFileReference; lastKnownFileType = sourcecode.swift; path = PermissionService.swift; sourceTree = "
      ++ [DQ] ++ txt "<group>" ++ [DQ] ++ txt "; };" in
  let denied_ref_entry :=
    [TAB; TAB] ++ id3
      ++ txt " /* PermissionDeniedView.swift */ = {isa = PBXFileReference; lastKnownFileType = sourcecode.swift; path = PermissionDeniedView.swift; sourceTree = "
      ++ [DQ] ++ txt "<group>" ++ [DQ] ++ txt "; };" in
  let file_refs := svc_ref_entry ++ [NL] ++ denied_ref_entry ++ [NL] in
  let svc_build_entry :=
    [TAB; TAB] ++ id2
      ++ txt " /* PermissionService.swift in Sources */ = {isa = PBXBuildFile; fileRef = "
      ++ id1 ++ txt " /* PermissionService.swift */; };" in
  let denied_build_entry :=
    [TAB; TAB] ++ id4
      ++ txt " /* PermissionDeniedView.swift in Sources */ = {isa = PBXBuildFile; fileRef = "
      ++ id3 ++ txt " /* PermissionDeniedView.swift */; };" in
  let build_files := svc_build_entry ++ [NL] ++ denied_build_entry ++ [NL] in
  let filescan_line := [NL; TAB; TAB; TAB; TAB] ++ id3 ++ txt " /* PermissionDeniedView.swift */," in
  let source_lines :=
    [NL; TAB; TAB; TAB; TAB] ++ id2 ++ txt " /* PermissionService.swift in Sources */,"
      ++ [NL; TAB; TAB; TAB; TAB] ++ id4
      ++ txt " /* PermissionDeniedView.swift in Sources */," in
  let c1 := after_file_refs i content in
  let c2 := after_build_files i content in
  let c3 := after_services i content in
  let c4 := after_filescan i content in
  found services_re content = false ->
  occurs end_refs content ->
  occurs end_builds c1 ->
  found filescan_re c3 = true ->
  found sources_re c4 = true ->
  exists out,
    (fst (run w) = 0 /\
     files (snd (run w)) !! pbx_path = Some out /\
     writes (snd (run w)) = S (writes w) /\
     console (snd (run w)) = console w ++
       [ "WARNING: Could not find Services group";
         "Added PermissionDeniedView.swift to FileScan group";
         "Added both files to Sources build phase";
         "Project updated successfully" ]%string) /\
    (exists a b, first_at end_refs content a /\
       content = a ++ end_refs ++ b /\
       c1 = a ++ file_refs ++ end_refs ++ b) /\
    (exists a b, first_at end_builds c1 a /\
       c1 = a ++ end_builds ++ b /\
       c2 = a ++ build_files ++ end_builds ++ b) /\
    c3 = c2 /\
    (exists a u v b,
       c3 = a ++ (group_head "FileScan" "children" u ++ v) ++ b /\
       brace_free u /\ paren_free v /\ stops_at (txt ")") b /\
       c4 = a ++ (group_head "FileScan" "children" u ++ v) ++ filescan_line ++ b) /\
    (exists a u v b,
       c4 = a ++ (group_head "Sources" "files" u ++ v) ++ b /\
       brace_free u /\ paren_free v /\ stops_at (txt ")") b /\
       out = a ++ (group_head "Sources" "files" u ++ v) ++ source_lines ++ b) /\
    (occurs file_refs out /\ occurs build_files out /\
     occurs filescan_line out /\ occurs source_lines out) /\
    inserted 4 content out /\
    length out = (length content + 368 + 326 + 63 + 145)%nat.
Proof.
  intros H G i id1 id2 id3 id4 end_refs end_builds
    svc_ref_entry denied_ref_entry file_refs
    svc_build_entry denied_build_entry build_files
    filescan_line source_lines c1 c2 c3 c4 Hs Hm1 Hm2 Hf Hp.
  assert (EF : file_refs = file_refs_of i) by reflexivity.
  assert (EB : build_files = build_files_of i) by reflexivity.
  assert (E2 : filescan_line = filescan_child i) by reflexivity.
  assert (E3 : source_lines = sources_of i) by reflexivity.
  clearbody file_refs build_files filescan_line source_lines.
  subst file_refs build_files filescan_line source_lines.
  clear svc_ref_entry denied_ref_entry svc_build_entry denied_build_entry.
  change end_refs with file_ref_end_marker in *.
  change end_builds with build_file_end_marker in *.
  clear end_refs end_builds.
  change (txt "PermissionService.swift") with guard_marker in G.
  pose proof (ids_of_well_formed w) as Hwf. fold i in Hwf.
  apply contains_false in G.
  apply (services_stay_missing i Hwf) in Hs.
  assert (E32 : c3 = c2).
  { unfold c3, after_services. by apply insert_after_match_not_found. }
  exists (patched i content). rewrite (run_patches w content H G).
  fold i. cbn [fst snd files console writes].
  split; [|split; [|split; [|split; [|split; [|split; [|split; [|split]]]]]]].
  - split; [done|]. split; [apply lookup_insert_eq|]. split; [done|].
    unfold messages. rewrite Hs. unfold filescan_found, sources_found.
    fold c3 c4. by rewrite Hf, Hp.
  - destruct (splice_found content file_ref_end_marker (file_refs_of i) Hm1)
      as (a & b & Hfirst & Hc & _ & Hsp). by exists a, b.
  - destruct (splice_found c1 build_file_end_marker (build_files_of i) Hm2)
      as (a & b & Hfirst & Hc & _ & Hsp). by exists a, b.
  - exact E32.
  - exact (insert_after_match_found "FileScan" "children" (filescan_child i) c3 Hf).
  - exact (insert_after_match_found "Sources" "files" (sources_of i) c4 Hp).
  - repeat split.
    + apply patched_keeps; [by apply file_refs_no_paren|].
      apply file_refs_survive; [done | done | apply file_refs_inserted].
    + apply patched_keeps; [by apply build_files_no_paren|].
      apply build_files_inserted.
    + apply patched_keeps_filescan; [by apply filescan_child_no_paren|].
      by apply (insert_after_match_occurs "FileScan" "children").
    + by apply (insert_after_match_occurs "Sources" "files").
  - unfold patched, after_filescan. fold c3. rewrite E32.
    do 2 apply insert_after_match_inserted.
    unfold c2, after_build_files, after_file_refs.
    do 2 apply inserted_splice. apply inserted_none.
  - rewrite patched_length. rewrite Hs. unfold filescan_found, sources_found.
    fold c3 c4. rewrite Hf, Hp. cbv iota. unfold i.
    destruct (fragment_lengths w) as (-> & -> & _ & -> & ->). lia.
Qed.

Lemma services_missing_patch_witness :
  let c := Sample.manifest_without_services in
  let w := Sample.world_with c in
  let i := ids_of w in
  let id1 := perm_svc_file_ref i in
  let id2 := perm_svc_build_file i in
  let id3 := perm_denied_file_ref i in
  let id4 := perm_denied_build_file i in
  let end_refs := txt "/* End PBXFileReference section */" in
  let end_builds := txt "/* End PBXBuildFile section */" in
  let svc_ref_entry :=
    [TAB; TAB] ++ id1
      ++ txt " /* PermissionService.swift */ = {isa = PBXFileReference; lastKnownFileType = sourcecode.swift; path = PermissionService.swift; sourceTree = "
      ++ [DQ] ++ txt "<group>" ++ [DQ] ++ txt "; };" in
  let denied_ref_entry :=
    [TAB; TAB] ++ id3
      ++ txt " /* PermissionDeniedView.swift */ = {isa = PBXFileReference; lastKnownFileType = sourcecode.swift; path = PermissionDeniedView.swift; sourceTree = "
      ++ [DQ] ++ txt "<group>" ++ [DQ] ++ txt "; };" in
  let file_refs := svc_ref_entry ++ [NL] ++ denied_ref_entry ++ [NL] in
  let svc_build_entry :=
    [TAB; TAB] ++ id2
      ++ txt " /* PermissionService.swift in Sources */ = {isa = PBXBuildFile; fileRef = "
      ++ id1 ++ txt " /* PermissionService.swift */; };" in
  let denied_build_entry :=
    [TAB; TAB] ++ id4
      ++ txt " /* PermissionDeniedView.swift in Sources */ = {isa = PBXBuildFile; fileRef = "
      ++ id3 ++ txt " /* PermissionDeniedView.swift */; };" in
  let build_files := svc_build_entry ++ [NL] ++ denied_build_entry ++ [NL] in
  let filescan_line := [NL; TAB; TAB; TAB; TAB] ++ id3 ++ txt " /* PermissionDeniedView.swift */," in
  let source_lines :=
    [NL; TAB; TAB; TAB; TAB] ++ id2 ++ txt " /* PermissionService.swift in Sources */,"
      ++ [NL; TAB; TAB; TAB; TAB] ++ id4
      ++ txt " /* PermissionDeniedView.swift in Sources */," in
  files w !! pbx_path = Some c /\
  ~ occurs (txt "PermissionService.swift") c /\
  found services_re c = false /\
  occurs end_refs c /\
  occurs end_builds (after_file_refs i c) /\
  found filescan_re (after_services i c) = true /\
  found sources_re (after_filescan i c) = true /\
  exists out,
    fst (run w) = 0 /\
    files (snd (run w)) !! pbx_path = Some out /\
    writes (snd (run w)) = 1%nat /\
    console (snd (run w)) =
      [ "WARNING: Could not find Services group";
        "Added PermissionDeniedView.swift to FileScan group";
        "Added both files to Sources build phase";
        "Project updated successfully" ]%string /\
    occurs file_refs out /\ occurs build_files out /\
    occurs filescan_line out /\ occurs source_lines out /\
    inserted 4 c out /\
    length out = (length c + 368 + 326 + 63 + 145)%nat.
Proof.
  intros c w i id1 id2 id3 id4 end_refs end_builds
    svc_ref_entry denied_ref_entry file_refs
    svc_build_entry denied_build_entry build_files
    filescan_line source_lines.
  assert (Hf : files w !! pbx_path = Some c) by (vm_compute; reflexivity).
  assert (Hg : ~ occurs (txt "PermissionService.swift") c)
    by (apply contains_false; vm_compute; reflexivity).
  assert (H0 : found services_re c = false) by (vm_compute; reflexivity).
  assert (H1 : occurs end_refs c)
    by (apply contains_spec; vm_compute; reflexivity).
  assert (H2 : occurs end_builds (after_file_refs i c))
    by (apply contains_spec; vm_compute; reflexivity).
  assert (H4 : found filescan_re (after_services i c) = true)
    by (vm_compute; reflexivity).
  assert (H5 : found sources_re (after_filescan i c) = true)
    by (vm_compute; reflexivity).
  repeat (split; [assumption|]).
  destruct (services_missing_patch w c Hf Hg H0 H1 H2 H4 H5)
    as (out & (Hexit & Hout & Hw & Hcon) & _ & _ & _ & _ & _ & Hocc & Hins & Hlen).
  exists out. destruct Hocc as (? & ? & ? & ?). by repeat split.
Defined.

(** C5, as the specification words it, fails: this manifest has no
    Services group and has the other four anchors, yet the file references
    land inside the FileScan group, whose pattern then no longer matches:
    the run prints two warnings and makes three insertions. *)
Lemma services_missing_counterexample :
  let c := Sample.filescan_around_marker in
  let w := Sample.world_with c in
  let i := ids_of w in
  (found services_re c = false /\
   occurs file_ref_end_marker c /\ occurs build_file_end_marker c /\
   found filescan_re c = true /\ found sources_re c = true /\
   ~ occurs guard_marker c) /\
  exists out,
    files (snd (run w)) !! pbx_path = Some out /\
    console (snd (run w)) =
      [ "WARNING: Could not find Services group";
        "WARNING: Could not find FileScan group";
        "Added both files to Sources build phase";
        "Project updated successfully" ]%string /\
    ~ occurs (filescan_child i) out /\
    length out =
      (length c + length (file_refs_of i) + length (build_files_of i)
       + length (sources_of i))%nat.
Proof.
  intros c w i. split.
  - repeat split;
      first [ apply contains_spec; vm_compute; reflexivity
            | apply contains_false; vm_compute; reflexivity
            | vm_compute; reflexivity ].
  - exists (patched i c). split; [vm_compute; reflexivity|].
    split; [vm_compute; reflexivity|].
    split; [apply contains_false; vm_compute; reflexivity|].
    vm_compute; reflexivity.
Qed.

(** * Identifiers in the inserted entries *)

Section Counting.











End Counting.

Section Linkage.

Variable i : ids.
Hypothesis Hwf : well_formed i.

Lemma file_refs_are_new_entries : file_refs_of i = new_entries i ++ [NL].
Proof.
  unfold file_refs_of, new_file_refs, new_entries. by rewrite <- !app_assoc.
Qed.

Lemma new_entries_no_paren : ")"%char ∉ new_entries i.
Proof using Hwf. unfold new_entries, file_ref_entry. use_wf Hwf. solve_notin. Qed.


(** The block of new file references is whole in the written text, whether
    or not the end markers were found. *)
Lemma new_entries_survive c : occurs (new_entries i) (patched i c).
Proof using Hwf.
  apply patched_keeps; [apply new_entries_no_paren|].
  pose proof (file_refs_inserted i c) as Hin.
  destruct (Py.contains build_file_end_marker (after_file_refs i c)) eqn:E.
  - apply contains_spec in E.
    apply (occurs_trans _ (file_refs_of i)).
    + rewrite file_refs_are_new_entries. exists [], [NL]. reflexivity.
    + by apply file_refs_survive.
  - apply contains_false in E. unfold after_build_files.
    destruct (splice_absent _ _ (build_files_of i) E)
      as (_ & body & tail & Hc & Hlen & ->).
    apply (occurs_insert_last _ NL); [lia|].
    rewrite <- Hc, <- file_refs_are_new_entries. exact Hin.
Qed.


End Linkage.

(** * The file-reference table of the output *)

Section Table.







End Table.

Section TableOfOutput.

Variable i : ids.
Hypothesis Hwf : well_formed i.








End TableOfOutput.



(** * A missing end-of-section marker, settled *)

(** C9, as the code has it. A missing end-of-section marker is not an
    error.  In a run past the guard, whichever markers are missing, the
    exit status is 0 and the file is written; the text written is the
    buffer left by the two table steps with at most three further
    insertions, it holds the two new file-reference entries (written out
    below) as one block and the two new build-file entries as one block,
    and the only lines printed are the three reports and the final
    message.  When the file-reference marker is missing, [find] gives
    [-1]: on a content that ends in a character [c] the two
    file-reference entries go right in front of [c], and on the empty
    content, which has no last character, they become the whole buffer.
    When the build-file marker is missing, [find] gives [-1] on the
    current buffer, which is never empty at that point, and the two
    build-file entries go right in front of its last character. *)
Theorem missing_end_marker_splices_before_last w content :
  files w !! pbx_path = Some content ->
  ~ occurs (txt "PermissionService.swift") content ->
  let i := ids_of w in
  let id1 := perm_svc_file_ref i in
  let id2 := perm_svc_build_file i in
  let id3 := perm_denied_file_ref i in
  let id4 := perm_denied_build_file i in
  let end_refs := txt "/* End PBXFileReference section */" in
  let end_builds := txt "/* End PBXBuildFile section */" in
  let svc_ref_entry :=
    [TAB; TAB] ++ id1
      ++ txt " /* PermissionService.swift */ = {isa = PBXFileReference; lastKnownFileType = sourcecode.swift; path = PermissionService.swift; sourceTree = "
      ++ [DQ] ++ txt "<group>" ++ [DQ] ++ txt "; };" in
  let denied_ref_entry :=
    [TAB; TAB] ++ id3
      ++ txt " /* PermissionDeniedView.swift */ = {isa = PBXFileReference; lastKnownFileType = sourcecode.swift; path = PermissionDeniedView.swift; sourceTree = "
      ++ [DQ] ++ txt "<group>" ++ [DQ] ++ txt "; };" in
  let file_refs := svc_ref_entry ++ [NL] ++ denied_ref_entry ++ [NL] in
  let svc_build_entry :=
    [TAB; TAB] ++ id2
      ++ txt " /* PermissionService.swift in Sources */ = {isa = PBXBuildFile; fileRef = "
      ++ id1 ++ txt " /* PermissionService.swift */; };" in
  let denied_build_entry :=
    [TAB; TAB] ++ id4
      ++ txt " /* PermissionDeniedView.swift in Sources */ = {isa = PBXBuildFile; fileRef = "
      ++ id3 ++ txt " /* PermissionDeniedView.swift */; };" in
  let build_files := svc_build_entry ++ [NL] ++ denied_build_entry ++ [NL] in
  let c1 := after_file_refs i content in
  let c2 := after_build_files i content in
  let reports :=
    [ "Added PermissionService.swift to Services group";
      "WARNING: Could not find Services group";
      "Added PermissionDeniedView.swift to FileScan group";
      "WARNING: Could not find FileScan group";
      "Added both files to Sources build phase";
      "WARNING: Could not find Sources build phase";
      "Project updated successfully" ]%string in
  (exists out,
     fst (run w) = 0 /\
     writes (snd (run w)) = S (writes w) /\
     files (snd (run w)) !! pbx_path = Some out /\
     inserted 3 c2 out /\
     occurs (svc_ref_entry ++ [NL] ++ denied_ref_entry) out /\
     occurs build_files out /\
     (length content + 368 + 326 <= length out)%nat /\
     exists printed, console (snd (run w)) = console w ++ printed /\
                     Forall (fun line => In line reports) printed) /\
  (~ occurs end_refs content ->
   Py.find content end_refs = -1 /\
   (content = [] -> c1 = file_refs) /\
   (forall body c, content = body ++ [c] -> c1 = body ++ file_refs ++ [c])) /\
  (~ occurs end_builds content ->
   Py.find c1 end_builds = -1 /\
   exists body c, c1 = body ++ [c] /\ c2 = body ++ build_files ++ [c]).
Proof.
  intros H G i id1 id2 id3 id4 end_refs end_builds svc_ref_entry denied_ref_entry
    file_refs svc_build_entry denied_build_entry build_files c1 c2 reports.
  assert (EN : svc_ref_entry ++ [NL] ++ denied_ref_entry = new_entries i)
    by reflexivity.
  assert (EF : file_refs = file_refs_of i) by reflexivity.
  assert (EB : build_files = build_files_of i) by reflexivity.
  rewrite EN. clear EN.
  clearbody file_refs build_files. subst file_refs build_files.
  clear svc_ref_entry denied_ref_entry svc_build_entry denied_build_entry.
  change end_refs with file_ref_end_marker in *.
  change end_builds with build_file_end_marker in *.
  clear end_refs end_builds.
  change (txt "PermissionService.swift") with guard_marker in G.
  apply contains_false in G.
  pose proof (ids_of_well_formed w) as Hwf. fold i in Hwf.
  rewrite (run_patches w content H G). cbn [fst snd files console writes].
  fold i. split; [|split].
  - exists (patched i content).
    split; [done|]. split; [done|]. split; [apply lookup_insert_eq|].
    split.
    { unfold patched, after_filescan, after_services.
      do 3 apply insert_after_match_inserted. apply inserted_none. }
    split; [by apply new_entries_survive|].
    split.
    { apply patched_keeps; [by apply build_files_no_paren|].
      apply build_files_inserted. }
    split.
    { rewrite patched_length. unfold i.
      destruct (fragment_lengths w) as (-> & -> & _). lia. }
    exists (messages i content). split; [done|].
    unfold messages.
    destruct (services_found i content), (filescan_found i content),
      (sources_found i content);
      repeat (apply Forall_cons; split;
              [simpl; repeat ((left; reflexivity) || right)|]);
      by apply Forall_nil.
  - intros Hno. pose proof (find_absent _ _ Hno) as Hfind.
    split; [exact Hfind|]. unfold c1, after_file_refs. rewrite Hfind.
    split.
    + intros ->. unfold splice. cbn. by rewrite app_nil_r.
    + intros body c ->. apply splice_last.
  - intros Hno.
    apply (build_marker_stays_absent i Hwf) in Hno.
    unfold c2, after_build_files. fold c1 in Hno |- *.
    destruct (splice_absent _ _ (build_files_of i) Hno)
      as (Hfind & body & tail & Hc & Hlen & Hsp).
    split; [done|].
    assert (Hone : length tail = 1%nat).
    { rewrite Hlen. unfold c1. rewrite (after_file_refs_length i content).
      destruct (file_refs_head i) as [x ->]. simpl length. lia. }
    destruct tail as [|c [|? ?]]; try discriminate.
    by exists body, c.
Qed.

Lemma missing_end_marker_splices_before_last_witness :
  let content := Sample.bare_manifest in
  let w := Sample.world_with content in
  let i := ids_of w in
  let id1 := perm_svc_file_ref i in
  let id2 := perm_svc_build_file i in
  let id3 := perm_denied_file_ref i in
  let id4 := perm_denied_build_file i in
  let end_refs := txt "/* End PBXFileReference section */" in
  let end_builds := txt "/* End PBXBuildFile section */" in
  let svc_ref_entry :=
    [TAB; TAB] ++ id1
      ++ txt " /* PermissionService.swift */ = {isa = PBXFileReference; lastKnownFileType = sourcecode.swift; path = PermissionService.swift; sourceTree = "
      ++ [DQ] ++ txt "<group>" ++ [DQ] ++ txt "; };" in
  let denied_ref_entry :=
    [TAB; TAB] ++ id3
      ++ txt " /* PermissionDeniedView.swift */ = {isa = PBXFileReference; lastKnownFileType = sourcecode.swift; path = PermissionDeniedView.swift; sourceTree = "
      ++ [DQ] ++ txt "<group>" ++ [DQ] ++ txt "; };" in
  let file_refs := svc_ref_entry ++ [NL] ++ denied_ref_entry ++ [NL] in
  let svc_build_entry :=
    [TAB; TAB] ++ id2
      ++ txt " /* PermissionService.swift in Sources */ = {isa = PBXBuildFile; fileRef = "
      ++ id1 ++ txt " /* PermissionService.swift */; };" in
  let denied_build_entry :=
    [TAB; TAB] ++ id4
      ++ txt " /* PermissionDeniedView.swift in Sources */ = {isa = PBXBuildFile; fileRef = "
      ++ id3 ++ txt " /* PermissionDeniedView.swift */; };" in
  let build_files := svc_build_entry ++ [NL] ++ denied_build_entry ++ [NL] in
  let c1 := after_file_refs i content in
  let c2 := after_build_files i content in
  files w !! pbx_path = Some content /\
  ~ occurs (txt "PermissionService.swift") content /\
  ~ occurs end_refs content /\
  ~ occurs end_builds content /\
  (exists out,
     fst (run w) = 0 /\
     writes (snd (run w)) = 1%nat /\
     files (snd (run w)) !! pbx_path = Some out /\
     inserted 3 c2 out /\
     occurs (svc_ref_entry ++ [NL] ++ denied_ref_entry) out /\
     occurs build_files out) /\
  Py.find content end_refs = -1 /\
  (forall body c, content = body ++ [c] -> c1 = body ++ file_refs ++ [c]) /\
  Py.find c1 end_builds = -1 /\
  exists body c, c1 = body ++ [c] /\ c2 = body ++ build_files ++ [c].
Proof.
  intros content w i id1 id2 id3 id4 end_refs end_builds svc_ref_entry denied_ref_entry
    file_refs svc_build_entry denied_build_entry build_files c1 c2.
  assert (Hf : files w !! pbx_path = Some content)
    by (vm_compute; reflexivity).
  assert (Hg : ~ occurs (txt "PermissionService.swift") content)
    by (apply contains_false; vm_compute; reflexivity).
  assert (H1 : ~ occurs end_refs content)
    by (apply contains_false; vm_compute; reflexivity).
  assert (H2 : ~ occurs end_builds content)
    by (apply contains_false; vm_compute; reflexivity).
  destruct (missing_end_marker_splices_before_last w content Hf Hg)
    as ((out & Hexit & Hw & Hout & Hins & Hrefs & Hbuilds & _) & Href & Hbuild).
  destruct (Href H1) as (Hfind1 & _ & Hlast).
  destruct (Hbuild H2) as (Hfind2 & Hsplice).
  repeat (split; [assumption|]).
  split; [exists out; repeat (split; [assumption|]); assumption|].
  repeat (split; [assumption|]). exact Hsplice.
Defined.

(** C9, as the specification words it: with the marker absent the two
    entries are spliced immediately before the final character of the
    current content.  The empty manifest holds neither the guard marker
    nor the file-reference marker, the run goes through with status 0,
    and it has no final character: no text [body] and character [c] make
    it up, and the two file-reference entries are put before nothing;
    they become the whole buffer. *)
Lemma empty_manifest_counterexample :
  let content : text := [] in
  let w := Sample.world_with content in
  let i := ids_of w in
  let id1 := perm_svc_file_ref i in
  let id2 := perm_svc_build_file i in
  let id3 := perm_denied_file_ref i in
  let id4 := perm_denied_build_file i in
  let end_refs := txt "/* End PBXFileReference section */" in
  let end_builds := txt "/* End PBXBuildFile section */" in
  let svc_ref_entry :=
    [TAB; TAB] ++ id1
      ++ txt " /* PermissionService.swift */ = {isa = PBXFileReference; lastKnownFileType = sourcecode.swift; path = PermissionService.swift; sourceTree = "
      ++ [DQ] ++ txt "<group>" ++ [DQ] ++ txt "; };" in
  let denied_ref_entry :=
    [TAB; TAB] ++ id3
      ++ txt " /* PermissionDeniedView.swift */ = {isa = PBXFileReference; lastKnownFileType = sourcecode.swift; path = PermissionDeniedView.swift; sourceTree = "
      ++ [DQ] ++ txt "<group>" ++ [DQ] ++ txt "; };" in
  let file_refs := svc_ref_entry ++ [NL] ++ denied_ref_entry ++ [NL] in
  files w !! pbx_path = Some content /\
  ~ occurs (txt "PermissionService.swift") content /\
  ~ occurs end_refs content /\
  Py.find content end_refs = -1 /\
  fst (run w) = 0 /\
  writes (snd (run w)) = 1%nat /\
  after_file_refs i content = file_refs /\
  ~ (exists body c, content = body ++ [c]) /\
  ~ (exists body c, after_file_refs i content = body ++ file_refs ++ [c]).
Proof.
  intros content w i id1 id2 id3 id4 end_refs end_builds svc_ref_entry
    denied_ref_entry file_refs.
  split; [vm_compute; reflexivity|].
  split; [apply contains_false; vm_compute; reflexivity|].
  split; [apply contains_false; vm_compute; reflexivity|].
  split; [vm_compute; reflexivity|].
  split; [vm_compute; reflexivity|].
  split; [vm_compute; reflexivity|].
  assert (E : after_file_refs i content = file_refs) by (vm_compute; reflexivity).
  split; [exact E|]. split.
  - intros (body & c & Hc). by destruct body.
  - intros (body & c & Hc). rewrite E in Hc.
    apply (f_equal length) in Hc. rewrite !length_app in Hc. simpl in Hc. lia.
Qed.


(** * Further properties of the script *)

(** ** What a run does to the world *)

(** X1. Exit status 0 is reached in two ways only.  A run that ends with
    status 0 read the manifest, and either the text read holds the guard
    marker and the run left the file system, the write count and the
    random source as they were, or the text read does not hold it and the
    run drew four random values and wrote the manifest once, the text
    written being the text read with insertions at five cut points, and
    different from it. *)
Theorem status_zero_run w :
  fst (run w) = 0 ->
  exists content,
    files w !! pbx_path = Some content /\
    ((occurs (txt "PermissionService.swift") content /\
      files (snd (run w)) = files w /\
      writes (snd (run w)) = writes w /\
      drawn (snd (run w)) = drawn w)
     \/
     (~ occurs (txt "PermissionService.swift") content /\
      writes (snd (run w)) = S (writes w) /\
      drawn (snd (run w)) = (4 + drawn w)%nat /\
      exists out,
        files (snd (run w)) = <[pbx_path := out]> (files w) /\
        inserted 5 content out /\ out <> content)).
Proof.
  change (txt "PermissionService.swift") with guard_marker.
  destruct (files w !! pbx_path) as [content|] eqn:H.
  - intros _. exists content. split; [done|].
    destruct (Py.contains guard_marker content) eqn:G.
    + left. rewrite (run_guarded w content H G). cbn [snd files writes drawn].
      split; [by apply contains_spec | done].
    + right. rewrite (run_patches w content H G). cbn [snd files writes drawn].
      split; [by apply contains_false|]. split; [done|]. split; [done|].
      exists (patched (ids_of w) content). split; [done|].
      split; [apply patched_inserted|].
      intros Heq. apply (f_equal length) in Heq. rewrite patched_length in Heq.
      destruct (fragment_lengths w) as (E1 & _). rewrite E1 in Heq. lia.
  - rewrite (run_missing w H). discriminate.
Qed.

Lemma status_zero_run_witness :
  let w := Sample.world_with Sample.manifest in
  fst (run w) = 0 /\
  exists content,
    files w !! pbx_path = Some content /\
    ((occurs (txt "PermissionService.swift") content /\
      files (snd (run w)) = files w /\
      writes (snd (run w)) = writes w /\
      drawn (snd (run w)) = drawn w)
     \/
     (~ occurs (txt "PermissionService.swift") content /\
      writes (snd (run w)) = S (writes w) /\
      drawn (snd (run w)) = (4 + drawn w)%nat /\
      exists out,
        files (snd (run w)) = <[pbx_path := out]> (files w) /\
        inserted 5 content out /\ out <> content)).
Proof.
  intros w.
  assert (H : fst (run w) = 0) by (vm_compute; reflexivity).
  split; [exact H|].
  exact (status_zero_run w H).
Defined.

(** X2. A run never creates, changes or removes a file other than the
    manifest. *)
Theorem other_files_untouched w path :
  path <> pbx_path ->
  files (snd (run w)) !! path = files w !! path.
Proof.
  intros Hne. destruct (files w !! pbx_path) as [content|] eqn:H.
  - destruct (Py.contains guard_marker content) eqn:G.
    + by rewrite (run_guarded w content H G).
    + rewrite (run_patches w content H G). cbn [snd files].
      by apply lookup_insert_ne.
  - by rewrite (run_missing w H).
Qed.

Lemma other_files_untouched_witness :
  let w := World (<["README.md"%string := txt "Vivacity"]>
                    (<[pbx_path := Sample.manifest]> ∅))
                 [] Sample.entropy 0 0 in
  "README.md"%string <> pbx_path /\
  files (snd (run w)) !! "README.md"%string = Some (txt "Vivacity").
Proof.
  intros w.
  assert (Hne : "README.md"%string <> pbx_path) by discriminate.
  split; [exact Hne|].
  rewrite (other_files_untouched w _ Hne). vm_compute. reflexivity.
Defined.

(** X3. Writing and drawing happen on one path only.  A run that writes
    read a manifest without the guard marker, drew its four random
    values before, and wrote once: the manifest, with the text read plus
    insertions at five cut points.  A run that draws random values read
    a manifest without the guard marker and drew exactly four. *)
Theorem write_means_unpatched_manifest w :
  (writes (snd (run w)) <> writes w ->
   exists content,
     files w !! pbx_path = Some content /\
     ~ occurs (txt "PermissionService.swift") content /\
     writes (snd (run w)) = S (writes w) /\
     drawn (snd (run w)) = (4 + drawn w)%nat /\
     exists out,
       files (snd (run w)) = <[pbx_path := out]> (files w) /\
       inserted 5 content out) /\
  (drawn (snd (run w)) <> drawn w ->
   exists content,
     files w !! pbx_path = Some content /\
     ~ occurs (txt "PermissionService.swift") content /\
     drawn (snd (run w)) = (4 + drawn w)%nat).
Proof.
  change (txt "PermissionService.swift") with guard_marker.
  destruct (files w !! pbx_path) as [content|] eqn:H.
  - destruct (Py.contains guard_marker content) eqn:G.
    + rewrite (run_guarded w content H G). cbn [snd files writes drawn].
      split; intros Hne; by destruct Hne.
    + rewrite (run_patches w content H G). cbn [snd files writes drawn].
      apply contains_false in G.
      split; intros _; exists content; repeat (split; [done|]); [|done].
      exists (patched (ids_of w) content). split; [done|].
      apply patched_inserted.
  - rewrite (run_missing w H). cbn [snd files writes drawn].
    split; intros Hne; by destruct Hne.
Qed.

Lemma write_means_unpatched_manifest_witness :
  let w := Sample.world_with Sample.manifest in
  writes (snd (run w)) <> writes w /\
  drawn (snd (run w)) <> drawn w /\
  (exists content,
     files w !! pbx_path = Some content /\
     ~ occurs (txt "PermissionService.swift") content /\
     writes (snd (run w)) = S (writes w) /\
     drawn (snd (run w)) = (4 + drawn w)%nat /\
     exists out,
       files (snd (run w)) = <[pbx_path := out]> (files w) /\
       inserted 5 content out) /\
  (exists content,
     files w !! pbx_path = Some content /\
     ~ occurs (txt "PermissionService.swift") content /\
     drawn (snd (run w)) = (4 + drawn w)%nat).
Proof.
  intros w.
  assert (Hw : writes (snd (run w)) <> writes w) by (vm_compute; lia).
  assert (Hd : drawn (snd (run w)) <> drawn w) by (vm_compute; lia).
  split; [exact Hw|]. split; [exact Hd|].
  destruct (write_means_unpatched_manifest w) as (H1 & H2).
  split; [exact (H1 Hw) | exact (H2 Hd)].
Defined.

(** X4. What the lines printed tell.  Of the lines a run adds to the
    console: the error line, when printed, is the only line, the status
    is 1, the manifest is missing and the file system is as it was; the
    notice, when printed, is the only line, the status is 0 and the file
    system is as it was; the success line, when printed, is the last of
    four lines, after one report for each of the three lists (success or
    warning, in the order Services, FileScan, Sources), the status is 0
    and the file was written once. *)
Theorem console_shape w printed :
  console (snd (run w)) = console w ++ printed ->
  (In "Error: project.pbxproj not found"%string printed ->
   printed = ["Error: project.pbxproj not found"%string] /\
   fst (run w) = 1 /\ files (snd (run w)) = files w /\
   files w !! pbx_path = None) /\
  (In "Files already added"%string printed ->
   printed = ["Files already added"%string] /\
   fst (run w) = 0 /\ files (snd (run w)) = files w) /\
  (In "Project updated successfully"%string printed ->
   fst (run w) = 0 /\ writes (snd (run w)) = S (writes w) /\
   exists r1 r2 r3,
      printed = [r1; r2; r3; "Project updated successfully"%string] /\
      In r1 ["Added PermissionService.swift to Services group";
             "WARNING: Could not find Services group"]%string /\
      In r2 ["Added PermissionDeniedView.swift to FileScan group";
             "WARNING: Could not find FileScan group"]%string /\
      In r3 ["Added both files to Sources build phase";
             "WARNING: Could not find Sources build phase"]%string).
Proof.
  destruct (files w !! pbx_path) as [content|] eqn:H.
  - destruct (Py.contains guard_marker content) eqn:G.
    + rewrite (run_guarded w content H G). cbn [fst snd console files writes].
      intros E. apply app_inv_head in E. subst printed.
      split; [|split]; simpl; intros [Hin|[]]; try discriminate. done.
    + rewrite (run_patches w content H G). cbn [fst snd console files writes].
      intros E. apply app_inv_head in E. subst printed. unfold messages.
      split; [|split].
      * destruct (services_found _ _), (filescan_found _ _), (sources_found _ _);
          simpl; intros Hin; exfalso;
          repeat (destruct Hin as [Hin|Hin]; [discriminate|]); exact Hin.
      * destruct (services_found _ _), (filescan_found _ _), (sources_found _ _);
          simpl; intros Hin; exfalso;
          repeat (destruct Hin as [Hin|Hin]; [discriminate|]); exact Hin.
      * intros _. split; [done|]. split; [done|].
        eexists _, _, _. split; [reflexivity|].
        destruct (services_found _ _), (filescan_found _ _), (sources_found _ _);
          simpl; tauto.
  - rewrite (run_missing w H). cbn [fst snd console files writes].
    intros E. apply app_inv_head in E. subst printed.
    split; [|split]; simpl; intros [Hin|[]]; try discriminate. done.
Qed.

Lemma console_shape_witness :
  let w := Sample.world_with Sample.manifest in
  let printed :=
    [ "Added PermissionService.swift to Services group";
      "Added PermissionDeniedView.swift to FileScan group";
      "Added both files to Sources build phase";
      "Project updated successfully" ]%string in
  console (snd (run w)) = console w ++ printed /\
  (In "Error: project.pbxproj not found"%string printed ->
   printed = ["Error: project.pbxproj not found"%string] /\
   fst (run w) = 1 /\ files (snd (run w)) = files w /\
   files w !! pbx_path = None) /\
  (In "Files already added"%string printed ->
   printed = ["Files already added"%string] /\
   fst (run w) = 0 /\ files (snd (run w)) = files w) /\
  (In "Project updated successfully"%string printed ->
   fst (run w) = 0 /\ writes (snd (run w)) = S (writes w) /\
   exists r1 r2 r3,
      printed = [r1; r2; r3; "Project updated successfully"%string] /\
      In r1 ["Added PermissionService.swift to Services group";
             "WARNING: Could not find Services group"]%string /\
      In r2 ["Added PermissionDeniedView.swift to FileScan group";
             "WARNING: Could not find FileScan group"]%string /\
      In r3 ["Added both files to Sources build phase";
             "WARNING: Could not find Sources build phase"]%string).
Proof.
  intros w printed.
  assert (H : console (snd (run w)) = console w ++ printed)
    by (vm_compute; reflexivity).
  split; [exact H|].
  exact (console_shape w printed H).
Defined.

(** ** Repeated runs *)

Section Repeated.

Lemma runs_guarded n w out :
  files w !! pbx_path = Some out -> occurs guard_marker out ->
  files (runs n w) = files w /\ writes (runs n w) = writes w /\
  drawn (runs n w) = drawn w /\
  length (console (runs n w)) = (n + length (console w))%nat.
Proof.
  intros Hf Hg. apply contains_spec in Hg. revert w Hf.
  induction n as [|n IH]; intros w Hf; [done|].
  cbn [runs]. rewrite (run_guarded w out Hf Hg). cbn [snd].
  destruct (IH (World (files w) (console w ++ ["Files already added"%string])
                      (entropy w) (drawn w) (writes w)) Hf)
    as (E1 & E2 & E3 & E4).
  cbn [files console writes drawn] in *. rewrite E1, E2, E3, E4.
  repeat split. rewrite length_app. simpl. lia.
Qed.

End Repeated.

(** X5. Once the script has run on an existing manifest, any number of
    further runs leaves the file system as the first run left it, writes
    nothing, draws no random value, and prints one line per run; and the
    next run again exits with status 0. *)
Theorem further_runs_change_nothing w content n :
  files w !! pbx_path = Some content ->
  let w1 := snd (run w) in
  files (runs n w1) = files w1 /\
  writes (runs n w1) = writes w1 /\
  drawn (runs n w1) = drawn w1 /\
  length (console (runs n w1)) = (n + length (console w1))%nat /\
  fst (run (runs n w1)) = 0.
Proof.
  intros H w1.
  assert (Hout : exists out, files w1 !! pbx_path = Some out /\
                             occurs guard_marker out).
  { subst w1. destruct (Py.contains guard_marker content) eqn:G.
    - rewrite (run_guarded w content H G). cbn [snd files].
      exists content. split; [done|]. by apply contains_spec.
    - rewrite (run_patches w content H G). cbn [snd files].
      exists (patched (ids_of w) content).
      split; [apply lookup_insert_eq | apply patched_has_guard_marker]. }
  destruct Hout as (out & Hf & Hg).
  destruct (runs_guarded n w1 out Hf Hg) as (E1 & E2 & E3 & E4).
  repeat (split; [assumption|]).
  assert (Hf' : files (runs n w1) !! pbx_path = Some out) by (by rewrite E1).
  apply contains_spec in Hg. by rewrite (run_guarded _ out Hf' Hg).
Qed.

Lemma further_runs_change_nothing_witness :
  let w := Sample.world_with Sample.manifest in
  let w1 := snd (run w) in
  files w !! pbx_path = Some Sample.manifest /\
  files (runs 3 w1) = files w1 /\
  writes (runs 3 w1) = 1%nat /\
  drawn (runs 3 w1) = 4%nat /\
  length (console (runs 3 w1)) = 7%nat /\
  fst (run (runs 3 w1)) = 0.
Proof.
  intros w w1.
  assert (Hf : files w !! pbx_path = Some Sample.manifest)
    by (vm_compute; reflexivity).
  split; [exact Hf|].
  destruct (further_runs_change_nothing w Sample.manifest 3 Hf)
    as (E1 & E2 & E3 & E4 & E5).
  fold w1 in E1, E2, E3, E4, E5.
  split; [exact E1|]. split; [rewrite E2; vm_compute; reflexivity|].
  split; [rewrite E3; vm_compute; reflexivity|].
  split; [rewrite E4; vm_compute; reflexivity | exact E5].
Defined.

(** ** The group patterns *)

Section GroupPatterns.

Lemma search_from_leftmost p s i mt :
  Re.search_from p s i = Some mt ->
  forall a m b, s = a ++ m ++ b -> matches p m ->
                (Re.m_start mt <= i + length a)%nat.
Proof.
  revert i. induction s as [|x s IH]; intros i; simpl.
  - destruct (Re.match_here p []) as [n|] eqn:E; [|discriminate].
    intros [= <-] a m b _ _. simpl. lia.
  - destruct (Re.match_here p (x :: s)) as [n|] eqn:E.
    + intros [= <-] a m b _ _. simpl. lia.
    + intros Hs [|y a] m b Heq Hm.
      * simpl in Heq. destruct (match_here_complete p m b Hm) as [k Hk].
        rewrite <- Heq in Hk. congruence.
      * simpl in Heq. injection Heq as _ Heq.
        specialize (IH _ Hs a m b Heq Hm). simpl. lia.
Qed.

(** The greedy star keeps the longest run after which the rest of the
    pattern matches. *)
Lemma star_greedy excl k s n :
  Re.star excl k s = Some n ->
  exists u t j, s = u ++ t /\ Forall (fun c => Re.excluded excl c = false) u /\
    k t = Some j /\ n = (length u + j)%nat /\
    forall u' t', s = u' ++ t' ->
                  Forall (fun c => Re.excluded excl c = false) u' ->
                  is_Some (k t') -> (length u' <= length u)%nat.
Proof.
  revert n. induction s as [|x s IH]; intros n; simpl.
  - intros E. exists [], [], n. repeat split; try done.
    intros u' t' Heq _ _. destruct u'; [simpl; lia | discriminate].
  - destruct (Re.excluded excl x) eqn:Ex.
    + intros E. exists [], (x :: s), n. repeat split; try done.
      intros [|y u'] t' Heq Hu' _; [simpl; lia|].
      simpl in Heq. injection Heq as <- _.
      apply Forall_cons in Hu' as [Hy _]. congruence.
    + destruct (Re.star excl k s) as [m|] eqn:Em.
      * intros [= <-].
        destruct (IH _ eq_refl) as (u & t & j & Hs & Hu & Hj & -> & Hmax).
        exists (x :: u), t, j. rewrite Hs. repeat split; try done.
        { by constructor. }
        intros [|y u'] t' Heq Hu' Hk; [simpl; lia|].
        simpl in Heq. injection Heq as <- Heq.
        apply Forall_cons in Hu' as [_ Hu'].
        rewrite <- Hs in Heq. specialize (Hmax u' t' Heq Hu' Hk). simpl. lia.
      * intros E. exists [], (x :: s), n. repeat split; try done.
        intros [|y u'] t' Heq Hu' Hk; [simpl; lia|].
        simpl in Heq. injection Heq as <- Heq.
        apply Forall_cons in Hu' as [_ Hu'].
        destruct (star_complete excl k u' t' Hu' Hk) as [z Hz].
        rewrite <- Heq in Hz. congruence.
Qed.

Lemma match_here_lit l p s n :
  Re.match_here (Re.lit l ++ p) s = Some n ->
  exists s' n', s = l ++ s' /\ Re.match_here p s' = Some n' /\
                n = (length l + n')%nat.
Proof.
  revert s n. induction l as [|c l IH]; intros s n; simpl.
  - intros E. by exists s, n.
  - destruct s as [|x s]; [discriminate|].
    destruct (Ascii.eqb_spec c x) as [->|]; [|discriminate].
    destruct (Re.match_here (Re.lit l ++ p) s) as [k|] eqn:E; [|discriminate].
    intros [= <-]. destruct (IH _ _ E) as (s' & n' & -> & Hn & ->).
    by exists s', n'.
Qed.

Lemma matches_lit_app l p m : matches p m -> matches (Re.lit l ++ p) (l ++ m).
Proof.
  induction l as [|c l IH]; intros Hm; simpl; [done|].
  constructor. by apply IH.
Qed.

(** The match [re.search] reports for a group pattern, as a cut of the
    text: it starts at the leftmost place where the pattern matches, its
    brace-free stretch [u] is the longest after which the list key
    follows, and its last part [v] runs up to the first closing
    parenthesis or the end of the text. *)
Lemma search_group name key c mt :
  Re.search (group_pattern name key) c = Some mt ->
  exists a u v b,
    c = a ++ (group_head name key u ++ v) ++ b /\
    brace_free u /\ paren_free v /\ stops_at (txt ")") b /\
    Re.m_start mt = length a /\
    Re.m_end mt = length (a ++ group_head name key u ++ v) /\
    forall u' b',
      (group_head name key u ++ v) ++ b = group_head name key u' ++ b' ->
      brace_free u' -> (length u' <= length u)%nat.
Proof.
  intros E.
  destruct (search_from_sound _ _ _ _ E) as (a & m & b & -> & _ & Hh & Hst & Hen).
  unfold group_head. unfold group_pattern in Hh.
  set (hd := txt "/* " ++ txt name ++ txt " */ = {") in *.
  set (kt := txt key ++ txt " = (") in *.
  apply match_here_lit in Hh as (s1 & n1 & Hs1 & Hh & Hn1).
  change (Re.star (txt "{}")
            (Re.match_here (Re.lit kt ++ [Re.NotStar (txt ")")])) s1 = Some n1) in Hh.
  apply star_greedy in Hh as (u & t & j & -> & Hu & Hk & -> & Hmax).
  apply match_here_lit in Hk as (s2 & n2 & -> & Hv & ->).
  pose proof (match_here_stops [] _ _ _ Hv) as Hstop.
  apply match_here_sound in Hv as (v & rest & -> & <- & Hm).
  apply matches_star_inv in Hm as (v' & w0 & -> & Hv' & Hw).
  apply matches_nil_inv in Hw as ->. rewrite app_nil_r in *.
  rewrite drop_app_length in Hstop.
  assert (Hcut : m = hd ++ u ++ kt ++ v' /\ b = rest).
  { apply app_inj_1.
    - rewrite Hn1, !length_app. lia.
    - rewrite Hs1, <- !app_assoc. reflexivity. }
  destruct Hcut as [-> ->].
  exists a, u, v', rest. rewrite <- !app_assoc.
  split; [done|]. split; [exact Hu|]. split; [exact Hv'|].
  split; [exact Hstop|]. split; [exact Hst|]. split.
  - rewrite Hen, !length_app. lia.
  - intros u' b' Heq Hu'. rewrite <- !app_assoc in Heq.
    apply app_inv_head in Heq.
    apply (Hmax u' (kt ++ b') Heq Hu').
    assert (Hm : matches (Re.lit kt ++ [Re.NotStar (txt ")")]) (kt ++ [] ++ []))
      by (apply matches_lit_app, matches_star; [by apply Forall_nil | constructor]).
    pose proof (match_here_complete _ _ b' Hm) as Hc.
    simpl in Hc. by rewrite app_nil_r in Hc.
Qed.

End GroupPatterns.

(** X6. A group pattern is found in a text exactly when the text contains
    the comment with the group's name followed by [ = {], then a stretch
    without braces, then the list key followed by [ = (].  So a group
    whose body has a nested brace before its list is reported as not
    found. *)
Theorem group_found_iff name key c :
  found (group_pattern name key) c = true <->
  exists a u b, c = a ++ group_head name key u ++ b /\ brace_free u.
Proof.
  split.
  - intros H.
    destruct (insert_after_match_found name key [] c H)
      as (a & u & v & b & -> & Hu & _).
    exists a, u, (v ++ b). by rewrite <- app_assoc.
  - intros (a & u & b & -> & Hu). unfold found.
    destruct (Re.search (group_pattern name key) (a ++ group_head name key u ++ b))
      eqn:E; [done|].
    apply search_None in E. destruct E.
    exists a, (group_head name key u ++ []), b. split.
    + by rewrite app_nil_r.
    + apply group_matches; [done | constructor].
Qed.

(** X7. When several places match a group pattern, the step works on the
    leftmost, and there on the longest head.  The new lines are inserted
    at the end of a match of the pattern: the group's head with a
    brace-free stretch [u], then a text [v] without closing parenthesis
    that stops in front of the first closing parenthesis or at the end of
    the text.  That match starts no later than any occurrence of the
    group's head, and among the heads that start at the same place its
    brace-free stretch is the longest.  So the place of the insertion is
    fixed by the text alone. *)
Theorem insertion_uses_leftmost_match name key x c :
  found (group_pattern name key) c = true ->
  exists a u v b,
    c = a ++ (group_head name key u ++ v) ++ b /\
    brace_free u /\ paren_free v /\ stops_at (txt ")") b /\
    insert_after_match (group_pattern name key) x c
      = a ++ (group_head name key u ++ v) ++ x ++ b /\
    forall a' u' b',
      c = a' ++ group_head name key u' ++ b' -> brace_free u' ->
      (length a <= length a')%nat /\
      (length a' = length a -> (length u' <= length u)%nat).
Proof.
  unfold found, insert_after_match.
  destruct (Re.search (group_pattern name key) c) as [mt|] eqn:E; [|done].
  intros _. pose proof E as E'.
  apply search_group in E' as (a & u & v & b & -> & Hu & Hv & Hb & Hst & Hen & Hmax).
  exists a, u, v, b. repeat (split; [done|]). split.
  - rewrite Hen. rewrite (app_assoc a _ b), splice_at. by rewrite <- app_assoc.
  - intros a' u' b' Heq Hu'. split.
    + assert (Hle : (Re.m_start mt <= 0 + length a')%nat).
      { apply (search_from_leftmost _ _ _ _ E a' (group_head name key u' ++ []) b').
        - by rewrite app_nil_r.
        - apply group_matches; [done | constructor]. }
      lia.
    + intros Hlen. symmetry in Hlen.
      destruct (app_inj_1 _ _ _ _ Hlen Heq) as [_ Heq'].
      by apply (Hmax u' b').
Qed.

Lemma insertion_uses_leftmost_match_witness :
  found services_re two_services = true /\
  insert_after_match services_re (txt "X") two_services
    = txt "A1 /* Services */ = {children = (" ++ [NL] ++ txt "X); };" ++ [NL]
      ++ txt "A9 /* Services */ = {children = (" ++ [NL] ++ txt "); };" ++ [NL] /\
  exists a u v b,
    two_services = a ++ (group_head "Services" "children" u ++ v) ++ b /\
    brace_free u /\ paren_free v /\ stops_at (txt ")") b /\
    insert_after_match (group_pattern "Services" "children") (txt "X") two_services
      = a ++ (group_head "Services" "children" u ++ v) ++ (txt "X") ++ b /\
    forall a' u' b',
      two_services = a' ++ group_head "Services" "children" u' ++ b' -> brace_free u' ->
      (length a <= length a')%nat /\
      (length a' = length a -> (length u' <= length u)%nat).
Proof.
  assert (H : found services_re two_services = true) by (vm_compute; reflexivity).
  split; [exact H|]. split; [vm_compute; reflexivity|].
  exact (insertion_uses_leftmost_match "Services" "children" (txt "X")
           two_services H).
Defined.

(** ** How much a run adds *)

(** X8. A run that writes always changes the manifest: the text written is
    longer than the text read by 694 characters for the two tables, plus
    60, 63 and 145 characters for each of the Services, FileScan and
    Sources steps that found its anchor; so by at least 694 and at most
    962 characters. *)
Theorem written_text_is_longer w content :
  files w !! pbx_path = Some content ->
  ~ occurs guard_marker content ->
  let i := ids_of w in
  exists out,
    files (snd (run w)) !! pbx_path = Some out /\
    length out =
      (length content + 694
       + (if services_found i content then 60 else 0)
       + (if filescan_found i content then 63 else 0)
       + (if sources_found i content then 145 else 0))%nat /\
    (length content + 694 <= length out <= length content + 962)%nat /\
    out <> content.
Proof.
  intros H G i. apply contains_false in G.
  rewrite (run_patches w content H G). cbn [snd files].
  exists (patched i content). split; [apply lookup_insert_eq|].
  assert (E : length (patched i content) =
    (length content + 694
     + (if services_found i content then 60 else 0)
     + (if filescan_found i content then 63 else 0)
     + (if sources_found i content then 145 else 0))%nat).
  { rewrite patched_length. unfold i.
    destruct (fragment_lengths w) as (-> & -> & -> & -> & ->). lia. }
  split; [exact E|]. split.
  - rewrite E. destruct (services_found i content), (filescan_found i content),
      (sources_found i content); lia.
  - intros Heq. rewrite Heq in E.
    destruct (services_found i content), (filescan_found i content),
      (sources_found i content); lia.
Qed.

Lemma written_text_is_longer_witness :
  let c := Sample.manifest_without_services in
  let w := Sample.world_with c in
  files w !! pbx_path = Some c /\
  ~ occurs guard_marker c /\
  exists out,
    files (snd (run w)) !! pbx_path = Some out /\
    length out = (length c + 694 + 0 + 63 + 145)%nat.
Proof.
  intros c w.
  assert (Hf : files w !! pbx_path = Some c) by (vm_compute; reflexivity).
  assert (Hg : ~ occurs guard_marker c)
    by (apply contains_false; vm_compute; reflexivity).
  split; [exact Hf|]. split; [exact Hg|].
  destruct (written_text_is_longer w c Hf Hg) as (out & Hout & Hlen & _).
  exists out. split; [exact Hout|]. rewrite Hlen. vm_compute. reflexivity.
Defined.

(** X11. The Services success report can be trusted about the file that
    was read: the table entries inserted before step 3 never make the
    Services pattern match, so when a run reports the Services group as
    updated, the content read already had the head of a Services group. *)
Theorem services_report_means_group_was_there w content :
  files w !! pbx_path = Some content ->
  ~ occurs guard_marker content ->
  nth 0 (drop (length (console w)) (console (snd (run w)))) ""%string
    = "Added PermissionService.swift to Services group"%string ->
  exists a u b,
    content = a ++ group_head "Services" "children" u ++ b /\ brace_free u.
Proof.
  intros H G. apply contains_false in G.
  rewrite (run_patches w content H G). cbn [snd console].
  rewrite drop_app_length. unfold messages. cbn [nth].
  destruct (services_found (ids_of w) content) eqn:Hs; [|discriminate].
  intros _.
  destruct (found services_re content) eqn:Hf.
  - destruct (insert_after_match_found "Services" "children" [] content Hf)
      as (a & u & v & b & -> & Hu & _).
    exists a, u, (v ++ b). by rewrite <- app_assoc.
  - apply (services_stay_missing (ids_of w) (ids_of_well_formed w)) in Hf.
    congruence.
Qed.

Lemma services_report_means_group_was_there_witness :
  let c := Sample.manifest in
  let w := Sample.world_with c in
  files w !! pbx_path = Some c /\
  ~ occurs guard_marker c /\
  nth 0 (drop (length (console w)) (console (snd (run w)))) ""%string
    = "Added PermissionService.swift to Services group"%string /\
  exists a u b,
    c = a ++ group_head "Services" "children" u ++ b /\ brace_free u.
Proof.
  intros c w.
  assert (Hf : files w !! pbx_path = Some c) by (vm_compute; reflexivity).
  assert (Hg : ~ occurs guard_marker c)
    by (apply contains_false; vm_compute; reflexivity).
  assert (Hr : nth 0 (drop (length (console w)) (console (snd (run w)))) ""%string
               = "Added PermissionService.swift to Services group"%string)
    by (vm_compute; reflexivity).
  repeat (split; [assumption|]).
  exact (services_report_means_group_was_there w c Hf Hg Hr).
Defined.

(** ** The shape of an identifier *)

Section IdentifierBits.

(** The characters of an identifier are the nibbles 31 down to 8 of the
    UUID. *)
Lemma uuid_text_digits r :
  uuid_text r =
  map (fun k => Py.upper_char
                  (Uuid.hex_digit (Z.land (Z.shiftr (Uuid.uuid4 r) (4 * Z.of_nat k)) 15)))
      (rev (seq 8 24)).
Proof. reflexivity. Qed.

Lemma uuid4_testbit r n :
  0 <= n ->
  Z.testbit (Uuid.uuid4 r) n =
  ((Z.testbit (r mod 2 ^ 128) n && negb (Z.testbit (Z.shiftl 0xc000 48) n)
    || Z.testbit (Z.shiftl 0x8000 48) n)
   && negb (Z.testbit (Z.shiftl 0xf000 64) n)
   || Z.testbit (Z.shiftl 4 76) n).
Proof.
  intros Hn. unfold Uuid.uuid4.
  by rewrite !Z.lor_spec, !Z.land_spec, !Z.lor_spec, !Z.land_spec,
    !Z.lnot_spec by done.
Qed.

Lemma version_nibble r : Z.land (Z.shiftr (Uuid.uuid4 r) 76) 15 = 4.
Proof.
  apply Z.bits_inj'. intros n Hn.
  rewrite Z.land_spec, Z.shiftr_spec by done.
  destruct (Z.lt_ge_cases n 4) as [Hlt|Hge].
  - rewrite uuid4_testbit by lia.
    assert (Hc : n = 0 \/ n = 1 \/ n = 2 \/ n = 3) by lia.
    destruct Hc as [-> | [-> | [-> | ->]]];
      destruct (Z.testbit (r mod 2 ^ 128) _); reflexivity.
  - rewrite (Z.bits_above_log2 15 n), (Z.bits_above_log2 4 n)
      by (try change (Z.log2 15) with 3; try change (Z.log2 4) with 2; lia).
    apply andb_false_r.
Qed.

Lemma variant_nibble r :
  8 <= Z.land (Z.shiftr (Uuid.uuid4 r) 60) 15 < 12.
Proof.
  pose proof (nibble_range (Uuid.uuid4 r) 60) as Hr.
  assert (E : Z.shiftr (Z.land (Z.shiftr (Uuid.uuid4 r) 60) 15) 2 = 2).
  { apply Z.bits_inj'. intros n Hn.
    rewrite Z.shiftr_spec, Z.land_spec, Z.shiftr_spec by lia.
    destruct (Z.lt_ge_cases n 2) as [Hlt|Hge].
    - rewrite uuid4_testbit by lia.
      assert (Hc : n = 0 \/ n = 1) by lia.
      destruct Hc as [-> | ->];
        destruct (Z.testbit (r mod 2 ^ 128) _); reflexivity.
    - rewrite (Z.bits_above_log2 15 (n + 2)), (Z.bits_above_log2 2 n)
        by (try change (Z.log2 15) with 3; try change (Z.log2 2) with 1; lia).
      apply andb_false_r. }
  rewrite Z.shiftr_div_pow2 in E by lia. change (2 ^ 2) with 4 in E.
  set (v := Z.land _ 15) in *.
  pose proof (Z.div_mod v 4 ltac:(lia)) as Hdm.
  pose proof (Z.mod_pos_bound v 4 ltac:(lia)) as Hm.
  rewrite E in Hdm. lia.
Qed.

(** Above bit 32 the UUID depends on the random value above bit 32 only. *)
Lemma uuid4_high_bits r r' n :
  32 <= n -> Z.shiftr r 32 = Z.shiftr r' 32 ->
  Z.testbit (Uuid.uuid4 r) n = Z.testbit (Uuid.uuid4 r') n.
Proof.
  intros Hn E. rewrite !uuid4_testbit by lia.
  assert (Hbit : Z.testbit (r mod 2 ^ 128) n = Z.testbit (r' mod 2 ^ 128) n).
  { destruct (Z.lt_ge_cases n 128) as [Hlt|Hge].
    - rewrite !Z.mod_pow2_bits_low by lia.
      replace n with (n - 32 + 32) by lia.
      rewrite <- !Z.shiftr_spec by lia. by rewrite E.
    - by rewrite !Z.mod_pow2_bits_high by lia. }
  by rewrite Hbit.
Qed.

End IdentifierBits.

(** X9. Every identifier carries the UUID's version and variant: its 13th
    character is always [4] and its 17th is one of [8], [9], [A], [B]; an
    identifier therefore has 90 random bits, not 96. *)
Theorem identifier_has_version_and_variant w :
  exists id w',
    gen_uuid w = (Done id, w') /\
    nth 12 id " "%char = "4"%char /\
    In (nth 16 id " "%char) (txt "89AB").
Proof.
  eexists _, _. split; [apply gen_uuid_run|].
  set (r := entropy w (drawn w)). split.
  - change (nth 12 (uuid_text r) " "%char) with
      (Py.upper_char (Uuid.hex_digit (Z.land (Z.shiftr (Uuid.uuid4 r) 76) 15))).
    by rewrite version_nibble.
  - change (nth 16 (uuid_text r) " "%char) with
      (Py.upper_char (Uuid.hex_digit (Z.land (Z.shiftr (Uuid.uuid4 r) 60) 15))).
    pose proof (variant_nibble r) as Hv.
    set (v := Z.land _ 15) in *.
    assert (Hc : v = 8 \/ v = 9 \/ v = 10 \/ v = 11) by lia.
    destruct Hc as [-> | [-> | [-> | ->]]]; simpl; tauto.
Qed.

(** X10. The last 32 random bits are thrown away by the truncation to 24
    characters: two random values that agree above bit 32 give the same
    identifier. *)
Theorem identifier_ignores_low_bits w w' :
  Z.shiftr (entropy w (drawn w)) 32 = Z.shiftr (entropy w' (drawn w')) 32 ->
  fst (gen_uuid w) = fst (gen_uuid w').
Proof.
  intros E. rewrite !gen_uuid_run. cbn [fst]. f_equal.
  rewrite !uuid_text_digits. apply map_ext_in. intros k Hk.
  apply in_rev, in_seq in Hk. cbv beta.
  set (r := entropy w (drawn w)) in *. set (r' := entropy w' (drawn w')) in *.
  assert (Hs : Z.shiftr (Uuid.uuid4 r) (4 * Z.of_nat k)
               = Z.shiftr (Uuid.uuid4 r') (4 * Z.of_nat k)).
  { apply Z.bits_inj'. intros n Hn. rewrite !Z.shiftr_spec by done.
    apply uuid4_high_bits; [lia | done]. }
  by rewrite Hs.
Qed.

Lemma identifier_ignores_low_bits_witness :
  let w := World ∅ [] (fun _ => 5) 0 0 in
  let w' := World ∅ [] (fun _ => 7) 0 0 in
  Z.shiftr (entropy w (drawn w)) 32 = Z.shiftr (entropy w' (drawn w')) 32 /\
  fst (gen_uuid w) = fst (gen_uuid w').
Proof.
  intros w w'.
  assert (E : Z.shiftr (entropy w (drawn w)) 32
              = Z.shiftr (entropy w' (drawn w')) 32) by reflexivity.
  split; [exact E|]. exact (identifier_ignores_low_bits w w' E).
Defined.
